(** * ElectroSpot backend: a shallow embedding of the decision logic

    The development follows the three JavaScript sources that carry logic:
    - [utils/serper.js]      : [Serper.searchExternalStations]
    - [utils/trip_logic.js]  : [TripLogic.evaluateSmartSuggestions]
    - the Express server     : [Server.register], [Server.stations_search],
                               [Server.create_booking], [Server.cancel_booking],
                               [Server.get_station], and the order of its
                               routes in [Router.routes]

    JavaScript exceptions are explicit ([Thrown]); everything a handler does
    to the outside world (console output, the HTTP request to the places
    provider) is recorded in a trace of [Event]s; the relational store is
    passed explicitly. *)

From Stdlib Require Import ZArith QArith Qabs Bool List String Ascii Lia.
From Stdlib Require Import DecimalString Sorting.Sorted Sorting.Permutation.
Import ListNotations.

Open Scope string_scope.
Open Scope list_scope.
Open Scope Z_scope.

(* ================================================================== *)
(** ** JavaScript values the sources manipulate *)

Module Js.

(** A double: finite (a rational), an infinity, or [NaN]. *)
Inductive Number :=
| Num (q : Q)
| PosInf
| NegInf
| NaN.

(** The values that reach the coordinate arguments: a JSON number, a query
    string, or nothing at all. *)
Inductive Value :=
| VUndefined
| VNum (n : Number)
| VStr (s : string).

(** [!s] is false exactly for a non-empty string. *)
Definition truthy_string (s : string) : bool :=
  match s with
  | EmptyString => false
  | String _ _ => true
  end.

(** [x || d] on a possibly missing string. *)
Definition or_string (x : option string) (d : string) : string :=
  match x with
  | Some s => if truthy_string s then s else d
  | None => d
  end.

(** [parseFloat] of a JSON number field: the number itself, [NaN] when the
    field is absent. *)
Definition parseFloat_field (x : option Q) : Number :=
  match x with
  | Some q => Num q
  | None => NaN
  end.

Definition is_digit (c : ascii) : bool :=
  let n := nat_of_ascii c in (48 <=? n)%nat && (n <=? 57)%nat.

(** White space removed by [String.prototype.trim] (the ASCII part). *)
Definition is_space (c : ascii) : bool :=
  let n := nat_of_ascii c in
  (n =? 32)%nat || ((9 <=? n)%nat && (n <=? 13)%nat).

Fixpoint filter_chars (keep : ascii -> bool) (s : string) : string :=
  match s with
  | EmptyString => EmptyString
  | String c r => if keep c then String c (filter_chars keep r) else filter_chars keep r
  end.

Fixpoint trim_start (s : string) : string :=
  match s with
  | EmptyString => EmptyString
  | String c r => if is_space c then trim_start r else s
  end.

(** Drops trailing white space: a character is kept when it is not a space
    or when something is kept after it. *)
Fixpoint trim_end (s : string) : string :=
  match s with
  | EmptyString => EmptyString
  | String c r =>
      match trim_end r with
      | EmptyString => if is_space c then EmptyString else String c EmptyString
      | r' => String c r'
      end
  end.

Definition trim (s : string) : string := trim_end (trim_start s).

Definition lower_char (c : ascii) : ascii :=
  let n := nat_of_ascii c in
  if (65 <=? n)%nat && (n <=? 90)%nat then ascii_of_nat (n + 32) else c.

Fixpoint toLowerCase (s : string) : string :=
  match s with
  | EmptyString => EmptyString
  | String c r => String (lower_char c) (toLowerCase r)
  end.

(** Template interpolation of an integer. *)
Definition string_of_Z (z : Z) : string := NilZero.string_of_int (Z.to_int z).

End Js.

(* ================================================================== *)
(** ** Effects: exceptions and the trace of observable actions *)

Module Effect.

Inductive Outcome (A : Type) :=
| Returned (a : A)
| Thrown (message : string).
Arguments Returned {A} a.
Arguments Thrown {A} message.

(** The body posted to the places provider. *)
Record SerperRequest := {
  req_api_key : string;          (* header X-API-KEY *)
  req_q : string;                (* "q" *)
  req_latitude : Js.Value;       (* first value interpolated into "location" *)
  req_longitude : Js.Value;      (* second value interpolated into "location" *)
  req_gl : string                (* "gl" *)
}.

(** One entry of [response.data.places]. *)
Record Place := {
  cid : option string;
  title : option string;
  place_address : option string;
  place_latitude : option Q;
  place_longitude : option Q;
  place_rating : option Q;
  ratingCount : option Z
}.

(** What [response.data.places] can be. *)
Inductive PlacesField :=
| PlacesMissing                                  (* absent, null or another falsy value *)
| PlacesArray (entries : list (option Place))    (* an array; [None] is a null entry *)
| PlacesNotArray.                                (* a truthy value that has no [map] *)

(** What [await axios(config)] can do. *)
Inductive AxiosResult :=
| AxiosRejected (message : string)               (* transport error, timeout, non-2xx status *)
| AxiosResolved (data : option PlacesField).     (* [None]: [response.data] is null or undefined *)

Inductive Event :=
| ConsoleLog (text : string)
| ConsoleWarn (text : string)
| ConsoleError (text : string)
| DiscoveryCalled (latitude longitude : Js.Value)   (* entry into searchExternalStations *)
| HttpPost (request : SerperRequest) (result : AxiosResult).

(** A computation: the events it emitted, in order, and how it ended. *)
Definition M (A : Type) : Type := (list Event * Outcome A)%type.

Definition ret {A} (a : A) : M A := ([], Returned a).
Definition throw {A} (message : string) : M A := ([], Thrown message).
Definition emit (e : Event) : M unit := ([e], Returned tt).

Definition bind {A B} (m : M A) (k : A -> M B) : M B :=
  match m with
  | (t, Returned a) => let (t', r) := k a in (t ++ t', r)
  | (t, Thrown e) => (t, Thrown e)
  end.

(** [try { body } catch (error) { handler(error.message) }]. *)
Definition try_catch {A} (body : M A) (handler : string -> M A) : M A :=
  match body with
  | (t, Returned a) => (t, Returned a)
  | (t, Thrown e) => let (t', r) := handler e in (t ++ t', r)
  end.

Definition trace {A} (m : M A) : list Event := fst m.
Definition outcome {A} (m : M A) : Outcome A := snd m.

(** The process environment and the outside world a request runs against. *)
Record World := {
  SERPER_API_KEY : option string;                  (* process.env.SERPER_API_KEY *)
  axios : SerperRequest -> AxiosResult;            (* the places provider *)
  random36 : nat -> string;                        (* Math.random().toString(36).substr(2, 9) for the i-th place *)
  getHours : Z;                                    (* new Date().getHours() *)
  NOW : Z;                                         (* the store's clock, NOW() *)
  bcrypt_hash : string -> string;                  (* bcrypt.hash(password, 10) *)
  jwt_sign : Z -> string -> bool -> string         (* jwt.sign({userId, email, isAdmin}, JWT_SECRET, 7d) *)
}.

End Effect.

Import Effect.

Declare Scope js_scope.
Notation "x <- m ;; k" := (bind m (fun x => k))
  (at level 61, m at next level, right associativity) : js_scope.
Notation "m ;;; k" := (bind m (fun _ => k))
  (at level 61, right associativity) : js_scope.
Open Scope js_scope.

(* ================================================================== *)
(** ** Stations *)

Inductive StationStatus := available | occupied | maintenance | inactive.

(** A persisted station has a SERIAL id, an external one a string. *)
Inductive StationId :=
| DbId (n : Z)
| ExtId (s : string).

Record Station := {
  id : StationId;
  name : string;
  address : string;
  latitude : Js.Number;
  longitude : Js.Number;
  status : StationStatus;
  connector_type : option string;
  power_output_kw : option Q;
  price_per_kwh : option Q;
  is_external : bool;
  rating : option Q;
  reviews : option Z
}.

(* ================================================================== *)
(** ** utils/serper.js *)

Module Serper.

Definition config (key : string) (latitude longitude : Js.Value) : SerperRequest :=
  {| req_api_key := key;
     req_q := "EV Charging Station";
     req_latitude := latitude;
     req_longitude := longitude;
     req_gl := "in" |}.

(** [const response = await axios(config)]. *)
Definition await_axios (w : World) (c : SerperRequest) : M (option PlacesField) :=
  let r := axios w c in
  emit (HttpPost c r) ;;;
  match r with
  | AxiosRejected msg => throw msg
  | AxiosResolved data => ret data
  end.

(** [response.data.places || []]. *)
Definition places_of (data : option PlacesField) : M PlacesField :=
  match data with
  | None => throw "Cannot read properties of undefined (reading 'places')"
  | Some PlacesMissing => ret (PlacesArray [])
  | Some f => ret f
  end.

(** The arrow function given to [places.map]. *)
Definition to_station (w : World) (i : nat) (place : Place) : Station :=
  {| id := ExtId ("ext_" ++ Js.or_string (cid place) (random36 w i))%string;
     name := Js.or_string (title place) "Unknown Station";
     address := Js.or_string (place_address place) "Address not available";
     latitude := Js.parseFloat_field (place_latitude place);
     longitude := Js.parseFloat_field (place_longitude place);
     status := available;
     connector_type := Some "CCS2";
     power_output_kw := Some (50 # 1)%Q;
     price_per_kwh := Some (0 # 1)%Q;
     is_external := true;
     rating := place_rating place;
     reviews := ratingCount place |}.

(** [entries.map(place => ...)] from index [i] on; reading a field of a
    null entry throws. *)
Fixpoint map_entries (w : World) (i : nat) (entries : list (option Place)) : M (list Station) :=
  match entries with
  | [] => ret []
  | None :: _ => throw "Cannot read properties of null (reading 'cid')"
  | Some place :: rest =>
      stations <- map_entries w (S i) rest ;;
      ret (to_station w i place :: stations)
  end.

Definition map_places (w : World) (f : PlacesField) : M (list Station) :=
  match f with
  | PlacesArray entries => map_entries w 0 entries
  | PlacesMissing => ret []
  | PlacesNotArray => throw "places.map is not a function"
  end.

(** The radius is accepted and never read. *)
Definition searchExternalStations (w : World) (latitude longitude : Js.Value) (radius : Js.Value)
  : M (list Station) :=
  emit (DiscoveryCalled latitude longitude) ;;;
  match SERPER_API_KEY w with
  | None =>
      emit (ConsoleWarn "⚠️ SERPER_API_KEY not configured. Skipping external search.") ;;;
      ret []
  | Some key =>
      if negb (Js.truthy_string key) then
        emit (ConsoleWarn "⚠️ SERPER_API_KEY not configured. Skipping external search.") ;;;
        ret []
      else
        try_catch
          (data <- await_axios w (config key latitude longitude) ;;
           places <- places_of data ;;
           map_places w places)
          (fun message =>
             emit (ConsoleError ("❌ Serper API error: " ++ message)%string) ;;;
             ret [])
  end.

End Serper.

(* ================================================================== *)
(** ** utils/trip_logic.js *)

Module TripLogic.

Inductive MealType := breakfast | lunch | dinner.

Definition meal_name (m : MealType) : string :=
  match m with
  | breakfast => "breakfast"
  | lunch => "lunch"
  | dinner => "dinner"
  end.

Record Trip := {
  trip_id : Z;
  destination_lat : Js.Number;
  destination_lng : Js.Number
}.

Record Location := {
  lat : Js.Value;
  lng : Js.Value
}.

Record Suggestion := {
  type : string;
  mealType : MealType;
  station : Station;
  message : string;
  chargeDuration : Z
}.

(** The if / else-if chain over [currentHour]. *)
Definition meal_of_hour (currentHour : Z) : option MealType :=
  if (8 <=? currentHour) && (currentHour <=? 9) then Some breakfast
  else if (12 <=? currentHour) && (currentHour <=? 14) then Some lunch
  else if (19 <=? currentHour) && (currentHour <=? 21) then Some dinner
  else None.

Definition batteryThreshold : Z := 60.
Definition suggestedDuration : Z := 40.

(** [s => s.power_output_kw >= 30]; false when the field is null. *)
Definition is_fast_charger (s : Station) : bool :=
  match power_output_kw s with
  | Some p => Qle_bool (30 # 1) p
  | None => false
  end.

Definition suggestion_message (m : MealType) (best : Station) : string :=
  ("It's " ++ meal_name m ++ " time! There's a fast charger nearby at " ++ name best
   ++ ". If you charge here for " ++ Js.string_of_Z suggestedDuration
   ++ " mins, you can reach your destination without another stop. ☕⚡")%string.

Section Evaluator.

(** The function imported from [./serper]. *)
Variable searchExternalStations : Js.Value -> Js.Value -> Js.Value -> M (list Station).

(** [currentHour] is [new Date().getHours()] at the time of the call. *)
Definition evaluateSmartSuggestions (currentHour : Z)
  (trip : Trip) (currentLocation : Location) (currentBattery : Z) : M (option Suggestion) :=
  match meal_of_hour currentHour with
  | None => ret None
  | Some meal =>
      if batteryThreshold <=? currentBattery then ret None
      else
        nearbyStations <-
          searchExternalStations (lat currentLocation) (lng currentLocation)
            (Js.VNum (Js.Num (5 # 1))) ;;
        let fastChargers := filter is_fast_charger nearbyStations in
        match fastChargers with
        | [] => ret None
        | bestStation :: _ =>
            ret (Some {| type := "meal_stop";
                         mealType := meal;
                         station := bestStation;
                         message := suggestion_message meal bestStation;
                         chargeDuration := suggestedDuration |})
        end
  end.

End Evaluator.

End TripLogic.

(* ================================================================== *)
(** ** The relational store *)

Module Store.

Inductive BookingStatus := active | completed | cancelled.

Record User := {
  user_id : Z;
  user_name : string;
  user_email : string;
  user_password : string;
  user_phone : string;
  is_admin : bool
}.

(** Timestamps are instants in milliseconds. *)
Record Booking := {
  booking_id : Z;
  booking_user_id : Z;
  booking_station_id : Z;
  start_time : Z;
  end_time : option Z;
  booking_status : BookingStatus;
  cancelled_at : option Z
}.

(** The tables in insertion order, and the two SERIAL sequences. *)
Record Db := {
  users : list User;
  charging_stations : list Station;
  bookings : list Booking;
  users_id_seq : Z;
  bookings_id_seq : Z
}.

(** [WHERE id = $1] on [charging_stations]. *)
Definition station_has_id (k : Z) (s : Station) : bool :=
  match id s with
  | DbId n => n =? k
  | ExtId _ => false
  end.

Definition set_station_status (st : StationStatus) (s : Station) : Station :=
  {| id := id s; name := name s; address := address s;
     latitude := latitude s; longitude := longitude s;
     status := st;
     connector_type := connector_type s; power_output_kw := power_output_kw s;
     price_per_kwh := price_per_kwh s; is_external := is_external s;
     rating := rating s; reviews := reviews s |}.

(** [UPDATE charging_stations SET status = st WHERE id = k]. *)
Definition update_station_status (k : Z) (st : StationStatus) (db : Db) : Db :=
  {| users := users db;
     charging_stations :=
       map (fun s => if station_has_id k s then set_station_status st s else s)
           (charging_stations db);
     bookings := bookings db;
     users_id_seq := users_id_seq db;
     bookings_id_seq := bookings_id_seq db |}.

Definition cancel_row (now : Z) (b : Booking) : Booking :=
  {| booking_id := booking_id b; booking_user_id := booking_user_id b;
     booking_station_id := booking_station_id b;
     start_time := start_time b; end_time := end_time b;
     booking_status := cancelled;
     cancelled_at := Some now |}.

(** [UPDATE bookings SET status = 'cancelled', cancelled_at = NOW() WHERE id = k]. *)
Definition update_booking_cancelled (k now : Z) (db : Db) : Db :=
  {| users := users db;
     charging_stations := charging_stations db;
     bookings := map (fun b => if booking_id b =? k then cancel_row now b else b) (bookings db);
     users_id_seq := users_id_seq db;
     bookings_id_seq := bookings_id_seq db |}.

(** [SELECT * FROM charging_stations WHERE id = k]. *)
Definition select_station (k : Z) (db : Db) : list Station :=
  filter (station_has_id k) (charging_stations db).

(** [SELECT * FROM bookings WHERE id = k AND user_id = u]. *)
Definition select_booking (k u : Z) (db : Db) : list Booking :=
  filter (fun b => (booking_id b =? k) && (booking_user_id b =? u)) (bookings db).

(** [SELECT id FROM users WHERE email = e]. *)
Definition select_user_by_email (e : string) (db : Db) : list User :=
  filter (fun u => String.eqb (user_email u) e) (users db).

(** [INSERT INTO bookings (...) VALUES (u, s, t, e, 'active', NOW()) RETURNING id]:
    the id is the next value of the sequence; the row is refused when [u]
    is not the id of a user (foreign key [fk_user]). *)
Definition insert_booking (u s t : Z) (e : option Z) (db : Db) : Outcome (Z * Db) :=
  if existsb (fun x => user_id x =? u) (users db) then
    let k := bookings_id_seq db in
    Returned (k,
      {| users := users db;
         charging_stations := charging_stations db;
         bookings := bookings db ++
           [ {| booking_id := k; booking_user_id := u; booking_station_id := s;
                start_time := t; end_time := e;
                booking_status := active; cancelled_at := None |} ];
         users_id_seq := users_id_seq db;
         bookings_id_seq := k + 1 |})
  else Thrown "insert or update on table bookings violates foreign key constraint fk_user".

(** [INSERT INTO users (...) VALUES (n, e, h, p, FALSE, NOW()) RETURNING ...]. *)
Definition insert_user (n e h p : string) (db : Db) : Outcome (User * Db) :=
  let u := {| user_id := users_id_seq db; user_name := n; user_email := e;
              user_password := h; user_phone := p; is_admin := false |} in
  Returned
    (u,
     {| users := users db ++ [u];
        charging_stations := charging_stations db;
        bookings := bookings db;
        users_id_seq := users_id_seq db + 1;
        bookings_id_seq := bookings_id_seq db |}).

End Store.

(* ================================================================== *)
(** ** PostgreSQL's order on double precision *)

Module Pg.

(** [a <= b] on float8: NaN equals itself and is above every other value. *)
Definition float8_le (a b : Js.Number) : bool :=
  match a, b with
  | _, Js.NaN => true
  | Js.NaN, _ => false
  | Js.NegInf, _ => true
  | _, Js.NegInf => false
  | _, Js.PosInf => true
  | Js.PosInf, _ => false
  | Js.Num x, Js.Num y => Qle_bool x y
  end.

Section OrderBy.

Context {A : Type} (key : A -> Js.Number).

Fixpoint insert_by (x : A) (l : list A) : list A :=
  match l with
  | [] => [x]
  | y :: r => if float8_le (key x) (key y) then x :: l else y :: insert_by x r
  end.

(** [ORDER BY key] ascending (one of the orders PostgreSQL may produce:
    rows with equal keys keep their relative position). *)
Definition order_by (l : list A) : list A := fold_right insert_by [] l.

End OrderBy.

(** A list is in ascending order of [key]. *)
Definition ascending {A} (key : A -> Js.Number) : list A -> Prop :=
  StronglySorted (fun a b => float8_le (key a) (key b) = true).

(** [LIMIT n]. *)
Definition limit {A} (n : nat) (l : list A) : list A := firstn n l.

End Pg.

(* ================================================================== *)
(** ** The Express handlers *)

Module Server.

Import Store.

(** A handler: reads and writes the store, emits events, may throw. *)
Definition H (A : Type) : Type := Db -> (list Event * Db * Outcome A)%type.

Definition hret {A} (a : A) : H A := fun db => ([], db, Returned a).

Definition hbind {A B} (m : H A) (k : A -> H B) : H B :=
  fun db =>
    match m db with
    | (t, db1, Returned a) => let '(t', db2, r) := k a db1 in (t ++ t', db2, r)
    | (t, db1, Thrown e) => (t, db1, Thrown e)
    end.

(** [try { body } catch (error) { handler(error.message) }]: what the body
    wrote before it threw stays written. *)
Definition htry {A} (body : H A) (handler : string -> H A) : H A :=
  fun db =>
    match body db with
    | (t, db1, Returned a) => (t, db1, Returned a)
    | (t, db1, Thrown e) => let '(t', db2, r) := handler e db1 in (t ++ t', db2, r)
    end.

(** A call that does not touch the store. *)
Definition lift {A} (m : M A) : H A := fun db => (fst m, db, snd m).

(** [await pool.query(...)] for a SELECT. *)
Definition select {A} (q : Db -> A) : H A := fun db => ([], db, Returned (q db)).

(** [await pool.query(...)] for a SELECT that may be refused. *)
Definition query {A} (q : Db -> Outcome A) : H A := fun db => ([], db, q db).

(** [await pool.query(...)] for a statement that always succeeds. *)
Definition execute (u : Db -> Db) : H unit := fun db => ([], u db, Returned tt).

(** [await pool.query(...)] for a statement that may be refused. *)
Definition execute_returning {A} (u : Db -> Outcome (A * Db)) : H A :=
  fun db =>
    match u db with
    | Returned (a, db') => ([], db', Returned a)
    | Thrown e => ([], db, Thrown e)
    end.

Declare Scope handler_scope.
Delimit Scope handler_scope with handler.
Notation "x <- m ;; k" := (hbind m (fun x => k))
  (at level 61, m at next level, right associativity) : handler_scope.
Notation "m ;;; k" := (hbind m (fun _ => k))
  (at level 61, right associativity) : handler_scope.

(** A row of the search response: a station, and the [distance] column when
    the row comes from the store. *)
Record SearchRow := {
  row_station : Station;
  distance : option Js.Number
}.

Record BookingView := {
  view_id : Z;
  view_user_id : Z;
  view_station_id : Z;
  view_start_time : Z;
  view_end_time : option Z;
  view_status : BookingStatus
}.

(** The part of a user row that a registration answers with. *)
Record UserView := {
  uv_id : Z;
  uv_name : string;
  uv_email : string;
  uv_phone : string
}.

Inductive Body :=
| JError (error : string)
| JMessage (message : string)
| JStation (row : Station)
| JStations (rows : list SearchRow)
| JRegistered (message token : string) (user : UserView)
| JBooking (message : string) (booking : BookingView).

Record Response := {
  status_code : Z;
  body : Body
}.

(** [res.status(c).json(b)]; [res.json(b)] is [json 200 b]. *)
Definition json (c : Z) (b : Body) : H Response :=
  hret {| status_code := c; body := b |}.

Definition internal_error (label : string) (message : string) : H Response :=
  (lift (emit (ConsoleError (label ++ message)%string)) ;;;
   json 500 (JError "Internal server error"))%handler.

Definition missing (x : option string) : bool :=
  match x with
  | Some s => negb (Js.truthy_string s)
  | None => true
  end.

Definition text (x : option string) : string :=
  match x with
  | Some s => s
  | None => ""
  end.

(* ---------------------------------------------------------------- *)
(** *** POST /auth/register

    The catch block answers the constraint codes 23505 and 23502 with 400
    and anything else with 500; no statement of this handler is refused by
    the store as modelled here, so only the last branch is written. *)

Record RegisterBody := {
  reg_name : option string;
  reg_email : option string;
  reg_password : option string;
  reg_phone : option string
}.

Definition plus_sign : ascii := ascii_of_nat 43.

(** [phoneTrimmed.replace(/[^\d+]/g, '').replace(/\+/g, '')]. *)
Definition digitsOnly (phoneTrimmed : string) : string :=
  Js.filter_chars (fun c => negb (Ascii.eqb c plus_sign))
    (Js.filter_chars (fun c => Js.is_digit c || Ascii.eqb c plus_sign) phoneTrimmed).

Definition register (w : World) (b : RegisterBody) : H Response :=
  htry
    (if missing (reg_name b) || missing (reg_email b) || missing (reg_password b) then
       json 400 (JError "Name, email, and password are required")
     else if missing (reg_phone b) then
       json 400 (JError "Phone number is required")
     else
       let phoneTrimmed := Js.trim (text (reg_phone b)) in
       if negb (Js.truthy_string phoneTrimmed) then
         json 400 (JError "Phone number cannot be empty")
       else if (String.length (digitsOnly phoneTrimmed) <? 10)%nat then
         json 400 (JError "Phone number must be at least 10 digits")
       else
         (existingUsers <- select (select_user_by_email (text (reg_email b))) ;;
          match existingUsers with
          | _ :: _ => json 400 (JError "User with this email already exists")
          | [] =>
              let hashedPassword := bcrypt_hash w (text (reg_password b)) in
              newUser <- execute_returning
                           (insert_user (text (reg_name b)) (text (reg_email b))
                              hashedPassword phoneTrimmed) ;;
              let token := jwt_sign w (user_id newUser) (text (reg_email b)) false in
              json 201
                (JRegistered "User registered successfully" token
                   {| uv_id := user_id newUser; uv_name := user_name newUser;
                      uv_email := user_email newUser; uv_phone := user_phone newUser |})
          end)%handler)
    (internal_error "Registration error: ").

(* ---------------------------------------------------------------- *)
(** *** GET /stations/:id *)

Definition get_station (k : Z) : H Response :=
  htry
    (stations <- select (select_station k) ;;
     match stations with
     | [] => json 404 (JError "Station not found")
     | row :: _ => json 200 (JStation row)
     end)%handler
    (internal_error "Error fetching station: ").

(* ---------------------------------------------------------------- *)
(** *** GET /stations/search *)

Record SearchQuery := {
  q_latitude : option string;
  q_longitude : option string;
  q_radius : option string
}.

Section Search.

(** The builtin [parseFloat] on strings. *)
Variable parseFloat : string -> Js.Number.

(** The value PostgreSQL computes on a row, in double precision, for
    [6371 * acos(cos(radians($1)) * cos(radians(latitude)) *
     cos(radians(longitude) - radians($2)) + sin(radians($1)) * sin(radians(latitude)))];
    [None] when [acos] refuses its argument (input is out of range).
    The development is parametric in it. *)
Variable great_circle : Js.Number -> Js.Number -> Station -> option Js.Number.

Definition parseFloat_value (v : Js.Value) : Js.Number :=
  match v with
  | Js.VStr s => parseFloat s
  | Js.VNum n => n
  | Js.VUndefined => Js.NaN
  end.

(** The inner SELECT: every row that is not inactive, with its distance. *)
Fixpoint with_distance (p1 p2 : Js.Number) (rows : list Station)
  : Outcome (list (Station * Js.Number)) :=
  match rows with
  | [] => Returned []
  | s :: rest =>
      match great_circle p1 p2 s with
      | None => Thrown "input is out of range"
      | Some d =>
          match with_distance p1 p2 rest with
          | Returned r => Returned ((s, d) :: r)
          | Thrown e => Thrown e
          end
      end
  end.

Definition not_inactive (s : Station) : bool :=
  match status s with
  | inactive => false
  | _ => true
  end.

Definition to_row (sd : Station * Js.Number) : SearchRow :=
  {| row_station := fst sd; distance := Some (snd sd) |}.

(** The whole statement with parameters [$1], [$2], [$3]. *)
Definition search_sql (p1 p2 p3 : Js.Number) (db : Db) : Outcome (list SearchRow) :=
  match with_distance p1 p2 (filter not_inactive (charging_stations db)) with
  | Thrown e => Thrown e
  | Returned filtered_stations =>
      Returned
        (map to_row
           (Pg.limit 50
              (Pg.order_by snd
                 (filter (fun sd => Pg.float8_le (snd sd) p3) filtered_stations))))
  end.

Definition external_row (s : Station) : SearchRow :=
  {| row_station := s; distance := None |}.

(** [!dbNames.has(s.name.toLowerCase())]. *)
Definition not_in_db (results : list SearchRow) (s : Station) : bool :=
  let dbNames := map (fun r => Js.toLowerCase (name (row_station r))) results in
  negb (existsb (String.eqb (Js.toLowerCase (name s))) dbNames).

Definition low_count_text (n : nat) : string :=
  ("🔍 Low result count (" ++ Js.string_of_Z (Z.of_nat n)
   ++ "). Triggering external discovery via Serper...")%string.

Definition added_text (n : nat) : string :=
  ("✅ Added " ++ Js.string_of_Z (Z.of_nat n) ++ " external stations.")%string.

Definition stations_search (w : World) (q : SearchQuery) : H Response :=
  htry
    (if missing (q_latitude q) || missing (q_longitude q) then
       json 400 (JError "Latitude and longitude are required")
     else
       let latitude := Js.VStr (text (q_latitude q)) in
       let longitude := Js.VStr (text (q_longitude q)) in
       let radius :=
         match q_radius q with
         | Some r => Js.VStr r
         | None => Js.VNum (Js.Num (10 # 1))
         end in
       (results <- query (search_sql (parseFloat_value latitude)
                                    (parseFloat_value longitude) (parseFloat_value radius)) ;;
        results <-
          (if (List.length results <? 5)%nat then
             htry
               (lift (emit (ConsoleLog (low_count_text (List.length results)))) ;;;
                externalStations <- lift (Serper.searchExternalStations w latitude longitude radius) ;;
                let uniqueExternal := filter (not_in_db results) externalStations in
                lift (emit (ConsoleLog (added_text (List.length uniqueExternal)))) ;;;
                hret (results ++ map external_row uniqueExternal))
               (fun message =>
                  lift (emit (ConsoleError ("⚠️ External search failed: " ++ message)%string)) ;;;
                  hret results)
           else hret results) ;;
        json 200 (JStations results))%handler)
    (internal_error "Error searching stations: ").

End Search.

(* ---------------------------------------------------------------- *)
(** *** POST /bookings *)

(** The JSON body: a numeric station id, a start time already read as an
    instant, and a duration in minutes. *)
Record BookingBody := {
  station_id : option Z;
  body_start_time : option Z;
  duration : option Z
}.

(** Truthiness of a possibly missing number. *)
Definition truthy_number (x : option Z) : bool :=
  match x with
  | Some n => negb (n =? 0)
  | None => false
  end.

Definition number (x : option Z) : Z :=
  match x with
  | Some n => n
  | None => 0
  end.

Definition is_available (s : Station) : bool :=
  match status s with
  | available => true
  | _ => false
  end.

(** [req.userId] is the user the bearer token names. *)
Definition create_booking (userId : Z) (b : BookingBody) : H Response :=
  htry
    (match body_start_time b with
     | None => json 400 (JError "Station ID and start time are required")
     | Some start =>
         if negb (truthy_number (station_id b)) then
           json 400 (JError "Station ID and start time are required")
         else
           let sid := number (station_id b) in
           (stations <- select (select_station sid) ;;
            match stations with
            | [] => json 404 (JError "Station not found")
            | row :: _ =>
                if negb (is_available row) then
                  json 400 (JError "Station is not available")
                else
                  let endTime :=
                    if truthy_number (duration b)
                    then Some (start + number (duration b) * 60000)
                    else None in
                  bookingId <- execute_returning (insert_booking userId sid start endTime) ;;
                  execute (update_station_status sid occupied) ;;;
                  json 201
                    (JBooking "Booking created successfully"
                       {| view_id := bookingId;
                          view_user_id := userId;
                          view_station_id := sid;
                          view_start_time := start;
                          view_end_time := endTime;
                          view_status := active |})
            end)%handler
     end)
    (internal_error "Error creating booking: ").

(* ---------------------------------------------------------------- *)
(** *** DELETE /bookings/:id *)

Definition cancel_booking (w : World) (userId : Z) (k : Z) : H Response :=
  htry
    (bookings <- select (select_booking k userId) ;;
     match bookings with
     | [] => json 404 (JError "Booking not found")
     | booking :: _ =>
         execute (update_booking_cancelled k (NOW w)) ;;;
         execute (update_station_status (booking_station_id booking) available) ;;;
         json 200 (JMessage "Booking cancelled successfully")
     end)%handler
    (internal_error "Error cancelling booking: ").

(** The three components of a finished request. *)
Definition response_of {A} (r : list Event * Db * Outcome A) : Outcome A := snd r.
Definition store_of {A} (r : list Event * Db * Outcome A) : Db := snd (fst r).
Definition events_of {A} (r : list Event * Db * Outcome A) : list Event := fst (fst r).

End Server.

(* ================================================================== *)
(** ** Route registration *)

Module Router.

Import Store Server.

Inductive Method := GET | POST | PUT | DELETE.

Inductive Segment :=
| Lit (s : string)
| Param (name : string).

Inductive Endpoint :=
| AuthRegister | AuthLogin | AuthLogout
| StationsList | StationById | StationsSearch
| BookingsCreate | BookingsList | BookingsCancel
| ProfileGet | ProfilePut
| AdminStats | AdminUsers | AdminStationCreate | AdminStationUpdate | AdminStationDelete
| AdminBookings
| TripsPlan | TripsUpdate | TripsActive
| PreferencesGet | PreferencesPut
| Health
| RouteNotFound.

Definition method_eqb (a b : Method) : bool :=
  match a, b with
  | GET, GET | POST, POST | PUT, PUT | DELETE, DELETE => true
  | _, _ => false
  end.

(** The [app.get], [app.post], [app.put] and [app.delete] calls of the
    server file, in the order in which they are made. *)
Definition routes : list (Method * list Segment * Endpoint) :=
  [ (POST, [Lit "auth"; Lit "register"], AuthRegister);
    (POST, [Lit "auth"; Lit "login"], AuthLogin);
    (POST, [Lit "auth"; Lit "logout"], AuthLogout);
    (GET, [Lit "stations"], StationsList);
    (GET, [Lit "stations"; Param "id"], StationById);
    (GET, [Lit "stations"; Lit "search"], StationsSearch);
    (POST, [Lit "bookings"], BookingsCreate);
    (GET, [Lit "bookings"], BookingsList);
    (DELETE, [Lit "bookings"; Param "id"], BookingsCancel);
    (GET, [Lit "users"; Lit "profile"], ProfileGet);
    (PUT, [Lit "users"; Lit "profile"], ProfilePut);
    (GET, [Lit "admin"; Lit "stats"], AdminStats);
    (GET, [Lit "admin"; Lit "users"], AdminUsers);
    (POST, [Lit "admin"; Lit "stations"], AdminStationCreate);
    (PUT, [Lit "admin"; Lit "stations"; Param "id"], AdminStationUpdate);
    (DELETE, [Lit "admin"; Lit "stations"; Param "id"], AdminStationDelete);
    (GET, [Lit "admin"; Lit "bookings"], AdminBookings);
    (POST, [Lit "trips"; Lit "plan"], TripsPlan);
    (POST, [Lit "trips"; Param "id"; Lit "update"], TripsUpdate);
    (GET, [Lit "trips"; Lit "active"], TripsActive);
    (GET, [Lit "users"; Lit "preferences"], PreferencesGet);
    (PUT, [Lit "users"; Lit "preferences"], PreferencesPut);
    (GET, [Lit "health"], Health) ].

(** A pattern against the segments of a request path: a literal matches
    itself up to letter case, a parameter any non-empty segment. *)
Fixpoint match_path (pattern : list Segment) (path : list string)
  : option (list (string * string)) :=
  match pattern, path with
  | [], [] => Some []
  | Lit s :: pattern', x :: path' =>
      if String.eqb (Js.toLowerCase s) (Js.toLowerCase x)
      then match_path pattern' path' else None
  | Param n :: pattern', x :: path' =>
      if Js.truthy_string x
      then option_map (cons (n, x)) (match_path pattern' path') else None
  | _, _ => None
  end.

(** The first registered route that matches handles the request (none of
    the handlers passes it on); the final [app.use] answers the rest. *)
Fixpoint dispatch_in (rs : list (Method * list Segment * Endpoint))
  (m : Method) (path : list string) : Endpoint * list (string * string) :=
  match rs with
  | [] => (RouteNotFound, [])
  | (m', pattern, e) :: rest =>
      if method_eqb m m' then
        match match_path pattern path with
        | Some params => (e, params)
        | None => dispatch_in rest m path
        end
      else dispatch_in rest m path
  end.

Definition dispatch (m : Method) (path : list string) : Endpoint * list (string * string) :=
  dispatch_in routes m path.

Fixpoint digits_value (acc : Z) (s : string) : option Z :=
  match s with
  | EmptyString => Some acc
  | String c r =>
      if Js.is_digit c
      then digits_value (10 * acc + (Z.of_nat (nat_of_ascii c) - 48)) r
      else None
  end.

(** The text of a parameter read for an integer column: a non-empty run of
    digits (sign, surrounding blanks and the range check are left out). *)
Definition int4_in (s : string) : option Z :=
  if Js.truthy_string s then digits_value 0 s else None.

(** GET /stations/:id on the text of [req.params.id]: the statement is
    refused when the text is no integer, and the catch block answers. *)
Definition station_by_param (param : string) : H Response :=
  match int4_in param with
  | Some k => get_station k
  | None =>
      internal_error "Error fetching station: "
        ("invalid input syntax for type integer: " ++ param)%string
  end.

End Router.

(* ================================================================== *)
(** ** Vocabulary of the specification *)

Module Spec.

Import TripLogic Store Server.

(** The three meal windows, inclusive bounds. *)
Definition in_meal_window (hour : Z) : Prop :=
  8 <= hour <= 9 \/ 12 <= hour <= 14 \/ 19 <= hour <= 21.

(** A fast charger: power output at least 30 kW. *)
Definition fast (s : Station) : Prop :=
  exists p, power_output_kw s = Some p /\ (30 # 1 <= p)%Q.

(** [s] is the first element of [l] that satisfies [P]. *)
Definition first_such {A} (P : A -> Prop) (l : list A) (s : A) : Prop :=
  exists before after, l = before ++ s :: after /\ P s /\ Forall (fun x => ~ P x) before.

(** The shape every externally discovered station has. *)
Definition external_shape (s : Station) : Prop :=
  (exists suffix, id s = ExtId ("ext_" ++ suffix)%string) /\
  is_external s = true /\
  status s = available /\
  connector_type s = Some "CCS2" /\
  price_per_kwh s = Some (0 # 1)%Q /\
  power_output_kw s = Some (50 # 1)%Q.

(** The provider was asked and answered with the place list [ps]. *)
Definition provider_returned (t : list Event) (ps : list Place) : Prop :=
  exists request, In (HttpPost request (AxiosResolved (Some (PlacesArray (map Some ps))))) t.

Definition is_place (e : option Place) : bool :=
  match e with
  | Some _ => true
  | None => false
  end.

(** An answer the mapping code can digest: a body with a place list (or
    none) in which every entry is an object. *)
Definition usable (r : AxiosResult) : bool :=
  match r with
  | AxiosResolved (Some PlacesMissing) => true
  | AxiosResolved (Some (PlacesArray entries)) => forallb is_place entries
  | _ => false
  end.

Definition key_configured (w : World) : bool :=
  match SERPER_API_KEY w with
  | Some key => Js.truthy_string key
  | None => false
  end.

Definition api_key (w : World) : string := Server.text (SERPER_API_KEY w).

Definition logged_failure (e : Event) : bool :=
  match e with
  | ConsoleWarn _ | ConsoleError _ => true
  | _ => false
  end.

(** Two names are equal up to letter case. *)
Definition same_name (a b : string) : Prop := Js.toLowerCase a = Js.toLowerCase b.

(** The distances carried by the rows of a response, in order. *)
Definition distances (rows : list SearchRow) : list Js.Number :=
  flat_map (fun r => match distance r with Some d => [d] | None => [] end) rows.

Definition nondecreasing (ds : list Js.Number) : Prop := Pg.ascending (fun d => d) ds.

Definition ok_rows (rows : list SearchRow) : Response :=
  {| status_code := 200; body := JStations rows |}.

(** The radius the search handler works with: the query string, or the
    number 10 when the parameter is absent. *)
Definition radius_of (q : SearchQuery) : Js.Value :=
  match q_radius q with
  | Some r => Js.VStr r
  | None => Js.VNum (Js.Num (10 # 1))
  end.

(** The property of a search response as the specification words it, for
    the requested [radius]: distances in non-decreasing order, none above
    the radius, no inactive station, at most 50 entries. *)
Definition search_claim (radius : Js.Number) (rows : list SearchRow) : Prop :=
  nondecreasing (distances rows) /\
  Forall (fun d => Pg.float8_le d radius = true) (distances rows) /\
  Forall (fun r => status (row_station r) <> inactive) rows /\
  (List.length rows <= 50)%nat.

Definition digit_count (s : string) : nat := String.length (Js.filter_chars Js.is_digit s).

(** Every booking id of the table is below the next value of the
    sequence. *)
Definition bookings_below_seq (db : Db) : Prop :=
  Forall (fun b => booking_id b < bookings_id_seq db) (bookings db).

End Spec.

(* ================================================================== *)
(** ** Sample data *)

Module Examples.

Import TripLogic Store Server Spec.

Definition sample_places : list Place :=
  [ {| cid := Some "1234567890"; title := Some "Zeon Charging Hub";
       place_address := Some "NH 66, Kochi"; place_latitude := Some (100159 # 10000)%Q;
       place_longitude := Some (763419 # 10000)%Q; place_rating := Some (45 # 10)%Q;
       ratingCount := Some 120 |};
    {| cid := None; title := None; place_address := None;
       place_latitude := None; place_longitude := None;
       place_rating := None; ratingCount := None |} ].

(** A configured key, a provider that answers every request with [places],
    and the clock at [hour]. *)
Definition world_with (places : list Place) (hour : Z) : World :=
  {| SERPER_API_KEY := Some "test-key";
     axios := fun _ => AxiosResolved (Some (PlacesArray (map Some places)));
     random36 := fun _ => "k3j9x0q1z";
     getHours := hour;
     NOW := 1700000000000;
     bcrypt_hash := fun password => ("$2a$10$" ++ password)%string;
     jwt_sign := fun _ email _ => ("jwt." ++ email)%string |}.

Definition sample_world : World := world_with sample_places 13.

Definition place_numbered (i : nat) : Place :=
  {| cid := Some (Js.string_of_Z (Z.of_nat i)); title := Some "EV Charging Station";
     place_address := None; place_latitude := None; place_longitude := None;
     place_rating := None; ratingCount := None |}.

(** A provider that answers with 51 places. *)
Definition crowded_world : World := world_with (map place_numbered (seq 0 51)) 13.

Definition station_with (k : Z) (n : string) (la lo : Q) (st : StationStatus) (kw : Q) : Station :=
  {| id := DbId k; name := n; address := "Kerala";
     latitude := Js.Num la; longitude := Js.Num lo; status := st;
     connector_type := Some "CCS2"; power_output_kw := Some kw;
     price_per_kwh := Some (15 # 100)%Q; is_external := false;
     rating := None; reviews := None |}.

Definition sample_user : User :=
  {| user_id := 7; user_name := "Asha"; user_email := "asha@example.com";
     user_password := "$2a$10$hash"; user_phone := "9876543210"; is_admin := false |}.

Definition sample_booking : Booking :=
  {| booking_id := 1; booking_user_id := 7; booking_station_id := 2;
     start_time := 1700000000000; end_time := None;
     booking_status := active; cancelled_at := None |}.

Definition sample_db : Db :=
  {| users := [sample_user];
     charging_stations :=
       [ station_with 1 "ElectroSpot Station 1" (100 # 10) (763 # 10) available (50 # 1);
         station_with 2 "ElectroSpot Station 2" (101 # 10) (763 # 10) occupied (25 # 1);
         station_with 3 "ElectroSpot Station 3" (100 # 10) (764 # 10) inactive (22 # 1) ];
     bookings := [sample_booking];
     users_id_seq := 8;
     bookings_id_seq := 2 |}.

Definition empty_db : Db :=
  {| users := []; charging_stations := []; bookings := [];
     users_id_seq := 1; bookings_id_seq := 1 |}.

Definition sample_query : SearchQuery :=
  {| q_latitude := Some "10.0"; q_longitude := Some "76.3"; q_radius := None |}.

(** Stand-ins for the two parameters of the search, for the examples only:
    a reader of the two literals the sample query uses, and a distance that
    grows with the difference of the coordinates. *)
Definition sample_parseFloat (s : string) : Js.Number :=
  if String.eqb s "10.0" then Js.Num (100 # 10)
  else if String.eqb s "76.3" then Js.Num (763 # 10)
  else Js.NaN.

Definition sample_distance (p1 p2 : Js.Number) (s : Station) : option Js.Number :=
  match p1, p2, latitude s, longitude s with
  | Js.Num a, Js.Num b, Js.Num x, Js.Num y =>
      Some (Js.Num ((111 # 1) * (Qabs (x - a) + Qabs (y - b))))
  | _, _, _, _ => Some Js.NaN
  end.

(** A discovery function returning a slow charger followed by two fast ones. *)
Definition sample_nearby : list Station :=
  [ station_with 2 "Slow" (101 # 10) (763 # 10) available (22 # 1);
    station_with 1 "Fast A" (100 # 10) (763 # 10) available (50 # 1);
    station_with 4 "Fast B" (100 # 10) (763 # 10) available (60 # 1) ].

Definition sample_search (_ _ _ : Js.Value) : M (list Station) := ret sample_nearby.

Definition short_phone_body : RegisterBody :=
  {| reg_name := Some "Asha"; reg_email := Some "asha@example.com";
     reg_password := Some "secret"; reg_phone := Some " +91 98765 " |}.

Definition sample_booking_body : BookingBody :=
  {| station_id := Some 1; body_start_time := Some 1700000000000; duration := Some 30 |}.

Definition sample_trip : Trip :=
  {| trip_id := 1; destination_lat := Js.Num (99312 # 10000);
     destination_lng := Js.Num (762673 # 10000) |}.

Definition sample_location : Location :=
  {| lat := Js.VNum (Js.Num (100159 # 10000)); lng := Js.VNum (Js.Num (763419 # 10000)) |}.

End Examples.

(* ================================================================== *)
(** ** Vocabulary for the booking handlers *)

Module BookingSpec.

Import Store Server.

(** No two rows of the bookings table share an id. *)
Definition booking_ids_unique (db : Db) : Prop := NoDup (map booking_id (bookings db)).

(** The body of a 400 answer of POST /bookings for a station that is taken. *)
Definition station_taken : Response :=
  {| status_code := 400; body := JError "Station is not available" |}.

Definition cancelled_ok : Response :=
  {| status_code := 200; body := JMessage "Booking cancelled successfully" |}.

End BookingSpec.

(* ================================================================== *)
(** ** Login, the token middleware and the profile handlers *)

Module Account.

Import Store Server.

Inductive Content :=
| Error (error : string)
| LoggedIn (message token : string) (user_id : Z) (name email : string) (isAdmin : bool)
| Profile (user_id : Z) (name email phone : string)
| Undefined.                      (* [res.json(undefined)] *)

Record Reply := {
  code : Z;
  content : Content
}.

Definition reply (c : Z) (b : Content) : H Reply := hret {| code := c; content := b |}.

Definition failed (label : string) (message : string) : H Reply :=
  (lift (emit (ConsoleError (label ++ message)%string)) ;;;
   reply 500 (Error "Internal server error"))%handler.

(* ---------------------------------------------------------------- *)
(** *** POST /auth/login *)

Record LoginBody := {
  login_email : option string;
  login_password : option string
}.

Section Login.

(** [bcrypt.compare(password, hash)]. *)
Variable bcrypt_compare : string -> string -> bool.

Definition login (w : World) (b : LoginBody) : H Reply :=
  htry
    (if missing (login_email b) || missing (login_password b) then
       reply 400 (Error "Email and password are required")
     else
       (users <- select (select_user_by_email (text (login_email b))) ;;
        match users with
        | [] => reply 401 (Error "Invalid email or password")
        | user :: _ =>
            let isValidPassword :=
              bcrypt_compare (text (login_password b)) (user_password user) in
            if negb isValidPassword then
              reply 401 (Error "Invalid email or password")
            else
              let token := jwt_sign w (user_id user) (user_email user) (is_admin user) in
              reply 200
                (LoggedIn "Login successful" token (user_id user) (user_name user)
                   (user_email user) (is_admin user))
        end)%handler)
    (failed "Login error: ").

End Login.

(* ---------------------------------------------------------------- *)
(** *** authenticateToken and authenticateAdmin *)

(** The payload [jwt.verify] decodes. *)
Record Claims := {
  claim_userId : Z;
  claim_email : string;
  claim_isAdmin : option bool
}.

(** What the middleware leaves on the request: [req.userId],
    [req.userEmail], [req.isAdmin]. *)
Record Identity := {
  userId : Z;
  userEmail : string;
  isAdmin : bool
}.

(** A middleware either answers itself or calls [next]. *)
Inductive Gate (A : Type) :=
| Rejected (code : Z) (error : string)
| Passed (a : A).
Arguments Rejected {A} code error.
Arguments Passed {A} a.

Definition space : ascii := ascii_of_nat 32.

(** [s.split(' ')]. *)
Fixpoint split_spaces (s : string) : list string :=
  match s with
  | EmptyString => [EmptyString]
  | String c r =>
      if Ascii.eqb c space then EmptyString :: split_spaces r
      else
        match split_spaces r with
        | word :: words => String c word :: words
        | [] => [String c EmptyString]
        end
  end.

(** [authHeader && authHeader.split(' ')[1]], when it is a non-empty string. *)
Definition token_of (authHeader : option string) : option string :=
  match authHeader with
  | None => None
  | Some h =>
      if Js.truthy_string h then
        match nth_error (split_spaces h) 1 with
        | Some t => if Js.truthy_string t then Some t else None
        | None => None
        end
      else None
  end.

Section Middleware.

(** [jwt.verify(token, JWT_SECRET)]; [None] when it throws. *)
Variable jwt_verify : string -> option Claims.

Definition authenticateToken (authHeader : option string) : Gate Identity :=
  match token_of authHeader with
  | None => Rejected 401 "Access token required"
  | Some token =>
      match jwt_verify token with
      | None => Rejected 403 "Invalid or expired token"
      | Some decoded =>
          Passed {| userId := claim_userId decoded;
                    userEmail := claim_email decoded;
                    isAdmin := match claim_isAdmin decoded with
                               | Some a => a
                               | None => false
                               end |}
      end
  end.

Definition authenticateAdmin (authHeader : option string) : Gate Identity :=
  match authenticateToken authHeader with
  | Rejected c e => Rejected c e
  | Passed req =>
      if negb (isAdmin req) then Rejected 403 "Admin access required"
      else Passed req
  end.

(** A route [app.METHOD(path, middleware, handler)]: the handler runs on the
    identity the middleware passes, or not at all. *)
Definition route {A} (gate : Gate Identity) (handler : Identity -> H A) : H (Gate A) :=
  match gate with
  | Rejected c e => hret (Rejected c e)
  | Passed req => (a <- handler req ;; hret (Passed a))%handler
  end.

End Middleware.

(* ---------------------------------------------------------------- *)
(** *** GET and PUT /users/profile *)

(** [SELECT ... FROM users WHERE id = k]. *)
Definition select_user (k : Z) (db : Db) : list User :=
  filter (fun u => user_id u =? k) (users db).

Definition get_profile (userId : Z) : H Reply :=
  htry
    (users <- select (select_user userId) ;;
     match users with
     | [] => reply 404 (Error "User not found")
     | u :: _ => reply 200 (Profile (user_id u) (user_name u) (user_email u) (user_phone u))
     end)%handler
    (failed "Error fetching profile: ").

Record ProfileBody := {
  new_name : option string;
  new_email : option string;
  new_phone : option string
}.

(** The value of a column after [SET], when the field is truthy. *)
Definition updated (field : option string) (old : string) : string :=
  if missing field then old else text field.

Definition set_profile (b : ProfileBody) (u : User) : User :=
  {| user_id := user_id u;
     user_name := updated (new_name b) (user_name u);
     user_email := updated (new_email b) (user_email u);
     user_password := user_password u;
     user_phone := updated (new_phone b) (user_phone u);
     is_admin := is_admin u |}.

(** A byte that continues a UTF-8 character. *)
Definition continuation (c : ascii) : bool :=
  let n := N_of_ascii c in ((128 <=? n) && (n <? 192))%N.

Fixpoint all_blank (s : string) : bool :=
  match s with
  | EmptyString => true
  | String c rest => Ascii.eqb c space && all_blank rest
  end.

(** What the store makes of a value assigned to a VARCHAR([n]) column: a
    value of at most [n] characters is stored as it is; a longer one is
    refused, unless everything after the [n]-th character is blanks, and
    then the first [n] characters are stored. *)
Fixpoint varchar (n : nat) (s : string) : option string :=
  match s with
  | EmptyString => Some EmptyString
  | String c rest =>
      if continuation c then option_map (String c) (varchar n rest)
      else
        match n with
        | O => if all_blank s then Some EmptyString else None
        | S n' => option_map (String c) (varchar n' rest)
        end
  end.

(** A field of the body as its column takes it: a falsy field is not part
    of the statement. *)
Definition fit (limit : nat) (field : option string) : option (option string) :=
  if missing field then Some field else option_map Some (varchar limit (text field)).

(** The values of the [SET] list once bound to their columns (name and email
    VARCHAR(255), phone VARCHAR(20)), or [None] when one is refused. *)
Definition stored_body (b : ProfileBody) : option ProfileBody :=
  match fit 255 (new_name b), fit 255 (new_email b), fit 20 (new_phone b) with
  | Some n, Some e, Some p => Some {| new_name := n; new_email := e; new_phone := p |}
  | _, _, _ => None
  end.

(** [UPDATE users SET ... WHERE id = k] with the fields of [b] that are
    truthy. The statement is refused when a value does not fit its column,
    or when it changes a row and gives it the email of a row with another id
    (unique constraint on email). *)
Definition update_user (k : Z) (b : ProfileBody) (db : Db) : Outcome (unit * Db) :=
  match stored_body b with
  | None => Thrown "value too long for type character varying"
  | Some b' =>
      if negb (missing (new_email b'))
         && existsb (fun u => user_id u =? k) (users db)
         && existsb (fun u => negb (user_id u =? k)
                              && String.eqb (user_email u) (text (new_email b')))
              (users db)
      then Thrown "duplicate key value violates unique constraint users_email_key"
      else
        Returned
          (tt,
           {| users := map (fun u => if user_id u =? k then set_profile b' u else u) (users db);
              charging_stations := charging_stations db;
              bookings := bookings db;
              users_id_seq := users_id_seq db;
              bookings_id_seq := bookings_id_seq db |})
  end.

Definition put_profile (userId : Z) (b : ProfileBody) : H Reply :=
  htry
    (if missing (new_name b) && missing (new_email b) && missing (new_phone b) then
       reply 400 (Error "No fields to update")
     else
       (execute_returning (update_user userId b) ;;;
        users <- select (select_user userId) ;;
        match users with
        | [] => reply 200 Undefined
        | u :: _ => reply 200 (Profile (user_id u) (user_name u) (user_email u) (user_phone u))
        end)%handler)
    (failed "Error updating profile: ").

(** A string without a space. *)
Fixpoint no_space (s : string) : bool :=
  match s with
  | EmptyString => true
  | String c r => negb (Ascii.eqb c space) && no_space r
  end.

Definition identity_of (c : Claims) : Identity :=
  {| userId := claim_userId c;
     userEmail := claim_email c;
     isAdmin := match claim_isAdmin c with Some a => a | None => false end |}.

Definition invalid_login : Reply :=
  {| code := 401; content := Error "Invalid email or password" |}.

End Account.

(* ================================================================== *)
(** ** Vocabulary for the profile handlers *)

Module ProfileSpec.

Import Store Server Account.

Definition no_field (b : ProfileBody) : bool :=
  missing (new_name b) && missing (new_email b) && missing (new_phone b).

(** The new email is the email of a row with another id. *)
Definition email_taken (k : Z) (b : ProfileBody) (db : Db) : bool :=
  negb (missing (new_email b))
  && existsb (fun u => negb (user_id u =? k) && String.eqb (user_email u) (text (new_email b)))
       (users db).

Definition user_exists (k : Z) (db : Db) : bool :=
  existsb (fun u => user_id u =? k) (users db).

(** A field that is given and longer than [limit] bytes. *)
Definition too_long (limit : nat) (field : option string) : bool :=
  negb (missing field) && (limit <? String.length (text field))%nat.

(** A field of the body is longer than its column (255 for the name and the
    email, 20 for the phone). *)
Definition field_too_long (b : ProfileBody) : bool :=
  too_long 255 (new_name b) || too_long 255 (new_email b) || too_long 20 (new_phone b).

(** What a profile reads as once the fields of [b] are applied to [u]. *)
Definition shown (b : ProfileBody) (u : User) : Reply :=
  {| code := 200;
     content := Profile (user_id u) (updated (new_name b) (user_name u))
                  (updated (new_email b) (user_email u))
                  (updated (new_phone b) (user_phone u)) |}.

End ProfileSpec.

(* ================================================================== *)
(** ** POST /trips/:id/update *)

Module Trips.

Import Store Server TripLogic.

Inductive TripStatus := trip_active | trip_completed | trip_cancelled.

Inductive WaypointType := suggested_stop | actual_stop.

Record TripRow := {
  row_id : Z;
  row_user_id : Z;
  row_vehicle_id : option Z;
  row_destination_lat : Js.Number;
  row_destination_lng : Js.Number;
  battery_start_pct : Z;
  battery_current_pct : Z;
  row_status : TripStatus
}.

Record Waypoint := {
  waypoint_id : Z;
  waypoint_trip_id : Z;
  waypoint_station_id : option Z;
  waypoint_type : WaypointType;
  suggestion_message : string;
  charge_duration_mins : Z
}.

(** The store of the booking handlers, and the two trip tables. *)
Record TripStore := {
  core : Db;
  trips : list TripRow;
  trip_waypoints : list Waypoint;
  trip_waypoints_id_seq : Z
}.

(** A handler over the trip tables. *)
Definition T (A : Type) : Type := TripStore -> (list Event * TripStore * Outcome A)%type.

Definition tret {A} (a : A) : T A := fun st => ([], st, Returned a).

Definition tbind {A B} (m : T A) (k : A -> T B) : T B :=
  fun st =>
    match m st with
    | (t, st1, Returned a) => let '(t', st2, r) := k a st1 in (t ++ t', st2, r)
    | (t, st1, Thrown e) => (t, st1, Thrown e)
    end.

Definition ttry {A} (body : T A) (handler : string -> T A) : T A :=
  fun st =>
    match body st with
    | (t, st1, Returned a) => (t, st1, Returned a)
    | (t, st1, Thrown e) => let '(t', st2, r) := handler e st1 in (t ++ t', st2, r)
    end.

(** A call that does not touch the store (the evaluator, the console). *)
Definition tlift {A} (m : M A) : T A := fun st => (fst m, st, snd m).

Definition tselect {A} (q : TripStore -> A) : T A := fun st => ([], st, Returned (q st)).

Definition texecute (u : TripStore -> Outcome TripStore) : T unit :=
  fun st =>
    match u st with
    | Returned st' => ([], st', Returned tt)
    | Thrown e => ([], st, Thrown e)
    end.

Declare Scope trip_scope.
Delimit Scope trip_scope with trip.
Notation "x <- m ;; k" := (tbind m (fun x => k))
  (at level 61, m at next level, right associativity) : trip_scope.
Notation "m ;;; k" := (tbind m (fun _ => k))
  (at level 61, right associativity) : trip_scope.

Inductive TripContent :=
| TripError (error : string)
| TripUpdate (trip_id : Z) (suggestion : option Suggestion).

Record TripReply := {
  trip_code : Z;
  trip_content : TripContent
}.

Definition answer (c : Z) (b : TripContent) : T TripReply :=
  tret {| trip_code := c; trip_content := b |}.

Record UpdateBody := {
  current_location : option Location;
  body_battery_current_pct : option Z
}.

Definition is_active (r : TripRow) : bool :=
  match row_status r with
  | trip_active => true
  | _ => false
  end.

(** [SELECT * FROM trips WHERE id = k AND user_id = u AND status = 'active']. *)
Definition select_active_trip (k u : Z) (st : TripStore) : list TripRow :=
  filter (fun r => (row_id r =? k) && (row_user_id r =? u) && is_active r) (trips st).

Definition with_battery (pct : Z) (r : TripRow) : TripRow :=
  {| row_id := row_id r; row_user_id := row_user_id r; row_vehicle_id := row_vehicle_id r;
     row_destination_lat := row_destination_lat r;
     row_destination_lng := row_destination_lng r;
     battery_start_pct := battery_start_pct r;
     battery_current_pct := pct;
     row_status := row_status r |}.

(** The values an INTEGER column takes. *)
Definition int4 (n : Z) : bool := (-2147483648 <=? n) && (n <=? 2147483647).

(** [UPDATE trips SET battery_current_pct = pct, updated_at = NOW() WHERE id = k];
    refused when [pct] is no INTEGER value. *)
Definition update_battery (k pct : Z) (st : TripStore) : Outcome TripStore :=
  if int4 pct then
    Returned
      {| core := core st;
         trips := map (fun r => if row_id r =? k then with_battery pct r else r) (trips st);
         trip_waypoints := trip_waypoints st;
         trip_waypoints_id_seq := trip_waypoints_id_seq st |}
  else Thrown "value out of range for type integer".

(** [suggestion.station.id.startsWith('ext_') ? null : suggestion.station.id]:
    a numeric id has no [startsWith]; a string that does not start with ext_
    is handed to the integer column as it is. *)
Definition station_parameter (s : Station) : Outcome (option string) :=
  match id s with
  | DbId _ => Thrown "suggestion.station.id.startsWith is not a function"
  | ExtId text => if String.prefix "ext_" text then Returned None else Returned (Some text)
  end.

(** [INSERT INTO trip_waypoints (trip_id, station_id, type, suggestion_message,
    charge_duration_mins) VALUES (k, station, 'suggested_stop', message, mins)]:
    refused when the station parameter is no integer or names no station. *)
Definition insert_waypoint (k : Z) (station : option string) (message : string) (mins : Z)
  (st : TripStore) : Outcome TripStore :=
  let row (sid : option Z) :=
    {| core := core st;
       trips := trips st;
       trip_waypoints := trip_waypoints st ++
         [ {| waypoint_id := trip_waypoints_id_seq st; waypoint_trip_id := k;
              waypoint_station_id := sid; waypoint_type := suggested_stop;
              suggestion_message := message; charge_duration_mins := mins |} ];
       trip_waypoints_id_seq := trip_waypoints_id_seq st + 1 |} in
  match station with
  | None => Returned (row None)
  | Some text =>
      match Router.int4_in text with
      | None => Thrown "invalid input syntax for type integer"
      | Some sid =>
          if existsb (station_has_id sid) (charging_stations (core st))
          then Returned (row (Some sid))
          else Thrown "insert or update on table trip_waypoints violates foreign key constraint"
      end
  end.

Definition trip_of (r : TripRow) : Trip :=
  {| trip_id := row_id r;
     destination_lat := row_destination_lat r;
     destination_lng := row_destination_lng r |}.

(** [req.userId] is [userId], [req.params.id] is [k]. *)
Definition update_trip (w : World) (userId k : Z) (b : UpdateBody) : T TripReply :=
  ttry
    (match current_location b, body_battery_current_pct b with
     | Some location, Some pct =>
         (rows <- tselect (select_active_trip k userId) ;;
          match rows with
          | [] => answer 404 (TripError "Active trip not found")
          | trip :: _ =>
              texecute (update_battery k pct) ;;;
              suggestion <- tlift (evaluateSmartSuggestions (Serper.searchExternalStations w)
                                     (getHours w) (trip_of trip) location pct) ;;
              match suggestion with
              | Some s =>
                  station <- (fun st => ([], st, station_parameter (station s))) ;;
                  texecute (insert_waypoint k station (message s) (chargeDuration s))
              | None => tret tt
              end ;;;
              answer 200 (TripUpdate k suggestion)
          end)%trip
     | _, _ => answer 400 (TripError "Current location and battery level are required")
     end)
    (fun message =>
       (tlift (emit (ConsoleError ("Error updating trip: " ++ message)%string)) ;;;
        answer 500 (TripError "Internal server error"))%trip).

(** What a request leaves behind. *)
Definition reply_of {A} (r : list Event * TripStore * Outcome A) : Outcome A := snd r.
Definition trip_store_of {A} (r : list Event * TripStore * Outcome A) : TripStore := snd (fst r).
Definition log_of {A} (r : list Event * TripStore * Outcome A) : list Event := fst (fst r).

(** The waypoint that records suggestion [s] for trip [k]. *)
Definition recorded (st : TripStore) (k : Z) (s : Suggestion) : Waypoint :=
  {| waypoint_id := trip_waypoints_id_seq st; waypoint_trip_id := k;
     waypoint_station_id := None; waypoint_type := suggested_stop;
     suggestion_message := message s; charge_duration_mins := 40 |}.

End Trips.

(* ================================================================== *)
(** ** test-logic.js *)

Module TestLogic.

Import TripLogic.

Definition mockTrip : Trip :=
  {| trip_id := 1;
     destination_lat := Js.Num (99312 # 10000);
     destination_lng := Js.Num (762673 # 10000) |}.

Definition mockLocation : Location :=
  {| lat := Js.VNum (Js.Num (100159 # 10000));
     lng := Js.VNum (Js.Num (763419 # 10000)) |}.

Definition isMealTime (currentHour : Z) : bool :=
  ((8 <=? currentHour) && (currentHour <=? 9))
  || ((12 <=? currentHour) && (currentHour <=? 14))
  || ((19 <=? currentHour) && (currentHour <=? 21)).

Definition newline : string := String (ascii_of_nat 10) EmptyString.

Definition string_of_bool (b : bool) : string := if b then "true" else "false".

Definition pass_meal : string := "✅ PASS: Suggestion generated during meal time.".
Definition fail_meal : string :=
  "❌ FAIL: No suggestion generated during meal time (check if Serper API key is set or mock results).".
Definition pass_no_meal : string := "✅ PASS: No suggestion during non-meal time.".
Definition fail_no_meal : string := "❌ FAIL: Suggestion generated outside meal time.".
Definition pass_high : string := "✅ PASS: No suggestion for high battery.".
Definition fail_high : string := "❌ FAIL: Suggestion generated for high battery.".

(** The script reads the clock for itself and the evaluator reads it again;
    both readings are [getHours w]. *)
Definition runTests (w : World) : M unit :=
  let evaluate := evaluateSmartSuggestions (Serper.searchExternalStations w) (getHours w) in
  emit (ConsoleLog ("🧪 Running AI Trip Logic Tests..." ++ newline)%string) ;;;
  let currentHour := getHours w in
  emit (ConsoleLog ("Current Hour: " ++ Js.string_of_Z currentHour ++ ", Is Meal Time: "
                    ++ string_of_bool (isMealTime currentHour))%string) ;;;
  suggestion <- evaluate mockTrip mockLocation 40 ;;
  (if isMealTime currentHour then
     match suggestion with
     | Some s =>
         emit (ConsoleLog pass_meal) ;;;
         emit (ConsoleLog ("   Message: " ++ message s)%string)
     | None => emit (ConsoleLog fail_meal)
     end
   else
     match suggestion with
     | None => emit (ConsoleLog pass_no_meal)
     | Some _ => emit (ConsoleLog fail_no_meal)
     end) ;;;
  highBatterySuggestion <- evaluate mockTrip mockLocation 80 ;;
  match highBatterySuggestion with
  | None => emit (ConsoleLog pass_high)
  | Some _ => emit (ConsoleLog fail_high)
  end.

(** A line of the script's output that reports a failure. *)
Definition is_fail (e : Event) : bool :=
  match e with
  | ConsoleLog text => String.prefix "❌ FAIL" text
  | _ => false
  end.

End TestLogic.

(* ================================================================== *)
(** ** Vocabulary for discovery, search and registration *)

Module MoreSpec.

Import Store Server TripLogic.

(** The place identifier the provider gave, the empty string when none. *)
Definition cid_text (p : Place) : string := text (cid p).

Definition has_cid (p : Place) : bool := Js.truthy_string (cid_text p).

(** The one request a discovery call sends. *)
Definition request_of (w : World) (latitude longitude : Js.Value) : SerperRequest :=
  Serper.config (text (SERPER_API_KEY w)) latitude longitude.

(** The window an hour falls in. *)
Definition window_of (meal : MealType) (hour : Z) : Prop :=
  match meal with
  | breakfast => 8 <= hour <= 9
  | lunch => 12 <= hour <= 14
  | dinner => 19 <= hour <= 21
  end.

(** The values of a registration fit the columns of the users table (name,
    email and password VARCHAR(255), phone VARCHAR(20)): a value of at most
    that many bytes has at most that many characters. *)
Definition fits_users_columns (w : World) (b : RegisterBody) : Prop :=
  (String.length (text (reg_name b)) <= 255)%nat /\
  (String.length (text (reg_email b)) <= 255)%nat /\
  (String.length (bcrypt_hash w (text (reg_password b))) <= 255)%nat /\
  (String.length (Js.trim (text (reg_phone b))) <= 20)%nat.

Definition coordinates_missing (q : SearchQuery) : bool :=
  missing (q_latitude q) || missing (q_longitude q).

End MoreSpec.

(* ================================================================== *)
(** ** More sample data *)

Module Samples.

Import TripLogic Store Server Account Trips Examples.

Definition ravi : RegisterBody :=
  {| reg_name := Some "Ravi"; reg_email := Some "ravi@example.com";
     reg_password := Some "secret"; reg_phone := Some " +91 98765 43210 " |}.

(** A comparison that accepts exactly the hashes [sample_world] produces. *)
Definition sample_compare (password hash : string) : bool :=
  String.eqb hash ("$2a$10$" ++ password)%string.

(** A verifier that knows the token [sample_world] signs for Ravi. *)
Definition sample_verify (token : string) : option Claims :=
  if String.eqb token "jwt.ravi@example.com"
  then Some {| claim_userId := 8; claim_email := "ravi@example.com";
               claim_isAdmin := Some false |}
  else None.

Definition old_booking : Booking :=
  {| booking_id := 1; booking_user_id := 7; booking_station_id := 2;
     start_time := 1700000000000; end_time := None;
     booking_status := cancelled; cancelled_at := Some 1700000100000 |}.

Definition held_booking : Booking :=
  {| booking_id := 2; booking_user_id := 9; booking_station_id := 2;
     start_time := 1700000200000; end_time := None;
     booking_status := active; cancelled_at := None |}.

(** Station 2 is held by an active booking of user 9, while user 7 still
    has an old, cancelled booking on it. *)
Definition held_db : Db :=
  {| users := [sample_user];
     charging_stations :=
       [ station_with 2 "ElectroSpot Station 2" (101 # 10) (763 # 10) occupied (25 # 1) ];
     bookings := [old_booking; held_booking];
     users_id_seq := 8;
     bookings_id_seq := 3 |}.

Definition phone_only : ProfileBody :=
  {| new_name := None; new_email := None; new_phone := Some "12345" |}.

Definition sample_trips : TripStore :=
  {| core := sample_db;
     trips :=
       [ {| row_id := 5; row_user_id := 7; row_vehicle_id := None;
            row_destination_lat := Js.Num (99312 # 10000);
            row_destination_lng := Js.Num (762673 # 10000);
            battery_start_pct := 80; battery_current_pct := 55;
            row_status := trip_active |};
         {| row_id := 4; row_user_id := 7; row_vehicle_id := None;
            row_destination_lat := Js.Num (99312 # 10000);
            row_destination_lng := Js.Num (762673 # 10000);
            battery_start_pct := 90; battery_current_pct := 20;
            row_status := trip_completed |} ];
     trip_waypoints := [];
     trip_waypoints_id_seq := 1 |}.

(** [sample_world] without an API key. *)
Definition keyless_world : World :=
  {| SERPER_API_KEY := None;
     axios := axios sample_world;
     random36 := random36 sample_world;
     getHours := 13;
     NOW := NOW sample_world;
     bcrypt_hash := bcrypt_hash sample_world;
     jwt_sign := jwt_sign sample_world |}.

End Samples.

(* ================================================================== *)
(** ** Proof steps for the route table *)

(** Reads a successful match of a pattern against a path: the path has the
    length of the pattern, its segments equal the literals up to case, and
    the parameters are non-empty. *)
Ltac read_match H :=
  cbn [Router.match_path] in H;
  repeat
    first
      [ match type of H with
        | context [match ?p with nil => _ | cons _ _ => _ end] =>
            is_var p; destruct p as [|? ?];
            cbn [Router.match_path option_map] in H; try discriminate H
        end
      | match type of H with
        | context [if String.eqb ?a ?b then _ else _] =>
            let E := fresh "E" in
            destruct (String.eqb a b) eqn:E;
            cbn [Router.match_path option_map] in H; try discriminate H;
            apply String.eqb_eq in E;
            match type of E with
            | ?l = _ => let l' := eval vm_compute in l in change l with l' in E
            end
        end
      | match type of H with
        | context [if Js.truthy_string ?x then _ else _] =>
            let T := fresh "T" in
            destruct (Js.truthy_string x) eqn:T;
            cbn [Router.match_path option_map] in H; try discriminate H
        end ].

(** Decides the comparisons between literals, and splits on the others. *)
Ltac settle_dispatch :=
  repeat
    first
      [ match goal with
        | |- context [Js.toLowerCase (String ?c ?r)] =>
            let v := eval vm_compute in (Js.toLowerCase (String c r)) in
            change (Js.toLowerCase (String c r)) with v
        end
      | match goal with
        | |- context [String.eqb (String ?c ?r) (String ?c' ?r')] =>
            let v := eval vm_compute in (String.eqb (String c r) (String c' r')) in
            change (String.eqb (String c r) (String c' r')) with v; cbv beta iota
        end
      | match goal with
        | |- context [if String.eqb ?a ?b then _ else _] =>
            destruct (String.eqb a b); cbv beta iota
        end ];
  reflexivity.

(* ================================================================== *)
(** ** Properties of utils/serper.js *)

Import Spec.

Lemma map_entries_trace w entries : forall i, fst (Serper.map_entries w i entries) = [].
Proof.
  induction entries as [|[p|] rest IH]; intros i; simpl; try reflexivity.
  specialize (IH (S i)). destruct (Serper.map_entries w (S i) rest) as [t [l|e]];
    simpl in *; subst; reflexivity.
Qed.

Lemma map_entries_null w entries : forall i,
  forallb is_place entries = false ->
  exists e, snd (Serper.map_entries w i entries) = Thrown e.
Proof.
  induction entries as [|[p|] rest IH]; intros i Hn; simpl in *.
  - discriminate.
  - destruct (IH (S i) Hn) as [e He].
    destruct (Serper.map_entries w (S i) rest) as [t [l|e']]; simpl in *.
    + discriminate.
    + eexists; reflexivity.
  - eexists; reflexivity.
Qed.

Lemma map_entries_places w ps : forall i,
  exists l, Serper.map_entries w i (map Some ps) = ([], Returned l)
    /\ List.length l = List.length ps /\ Forall external_shape l.
Proof.
  induction ps as [|p rest IH]; intros i; simpl.
  - exists []. repeat split; constructor.
  - destruct (IH (S i)) as (l & -> & Hlen & Hall). simpl.
    exists (Serper.to_station w i p :: l). repeat split.
    + simpl. now rewrite Hlen.
    + constructor; [|exact Hall].
      unfold external_shape; simpl. repeat split; eauto.
Qed.

Lemma entries_all_places entries :
  forallb is_place entries = true -> exists ps, entries = map Some ps.
Proof.
  induction entries as [|[p|] rest IH]; simpl; intros H.
  - exists []. reflexivity.
  - destruct (IH H) as [ps ->]. exists (p :: ps). reflexivity.
  - discriminate.
Qed.

(** Every way a call to [searchExternalStations] can go. *)
Lemma searchExternalStations_cases w lat lng radius :
  let run := Serper.searchExternalStations w lat lng radius in
  let c := Serper.config (api_key w) lat lng in
  let r := axios w c in
  (key_configured w = false /\
   exists text, run = ([DiscoveryCalled lat lng; ConsoleWarn text], Returned []))
  \/ (key_configured w = true /\ usable r = false /\
      exists text, run = ([DiscoveryCalled lat lng; HttpPost c r; ConsoleError text], Returned []))
  \/ (key_configured w = true /\ r = AxiosResolved (Some PlacesMissing) /\
      run = ([DiscoveryCalled lat lng; HttpPost c r], Returned []))
  \/ (key_configured w = true /\
      exists ps l, r = AxiosResolved (Some (PlacesArray (map Some ps))) /\
        run = ([DiscoveryCalled lat lng; HttpPost c r], Returned l) /\
        List.length l = List.length ps /\ Forall external_shape l).
Proof.
  unfold Serper.searchExternalStations, key_configured, api_key.
  destruct (SERPER_API_KEY w) as [key|] eqn:Hkey; simpl.
  2:{ left. split; [reflexivity|]. eexists; reflexivity. }
  destruct (Js.truthy_string key) eqn:Htruthy; simpl.
  2:{ left. split; [reflexivity|]. eexists; reflexivity. }
  right. unfold Serper.await_axios.
  destruct (axios w (Serper.config key lat lng)) as [msg|[[|entries|]|]] eqn:Hax; simpl.
  - left. split; [reflexivity|]. split; [reflexivity|]. eexists; reflexivity.
  - right; left. repeat split.
  - destruct (forallb is_place entries) eqn:Hall.
    + right; right. split; [reflexivity|].
      destruct (entries_all_places entries Hall) as [ps ->].
      destruct (map_entries_places w ps 0%nat) as (l & Hl & Hlen & Hshape).
      exists ps, l. rewrite Hl. simpl. repeat split; assumption.
    + left. split; [reflexivity|]. split; [reflexivity|].
      pose proof (map_entries_trace w entries 0%nat) as Ht.
      destruct (map_entries_null w entries 0%nat Hall) as [e He].
      destruct (Serper.map_entries w 0 entries) as [t o]; simpl in *; subst.
      eexists; reflexivity.
  - left. split; [reflexivity|]. split; [reflexivity|]. eexists; reflexivity.
  - left. split; [reflexivity|]. split; [reflexivity|]. eexists; reflexivity.
Qed.

(** The call always returns a list. *)
Lemma discovery_returns w lat lng radius :
  exists stations, snd (Serper.searchExternalStations w lat lng radius) = Returned stations.
Proof.
  destruct (searchExternalStations_cases w lat lng radius)
    as [(_ & text & Hr) | [(_ & _ & text & Hr) | [(_ & _ & Hr) | (_ & ps & l & _ & Hr & _)]]];
    rewrite Hr; eexists; reflexivity.
Qed.

(** C4. [searchExternalStations] returns to its caller on every input and
    never throws; when the API key is missing, and when the provider request
    is rejected or its answer cannot be read as a place list, the value
    returned is the empty list and a warning or an error is logged. *)
Theorem searchExternalStations_never_throws :
  forall w latitude longitude radius,
    let run := Serper.searchExternalStations w latitude longitude radius in
    (exists stations, outcome run = Returned stations) /\
    (key_configured w = false ->
       outcome run = Returned [] /\ existsb logged_failure (trace run) = true) /\
    (key_configured w = true ->
       usable (axios w (Serper.config (api_key w) latitude longitude)) = false ->
       outcome run = Returned [] /\ existsb logged_failure (trace run) = true).
Proof.
  intros w lat lng radius run.
  destruct (searchExternalStations_cases w lat lng radius)
    as [(Hk & text & Hr) | [(Hk & Hu & text & Hr) | [(Hk & Hm & Hr) | (Hk & ps & l & Hm & Hr & _)]]];
    fold run in Hr; unfold outcome, trace; rewrite Hr; simpl.
  - split; [eexists; reflexivity|]. split; [auto|]. intros Hk'; congruence.
  - split; [eexists; reflexivity|]. split; [intros Hk'; congruence|auto].
  - split; [eexists; reflexivity|]. split; [intros Hk'; congruence|].
    intros _ Hu. rewrite Hm in Hu. discriminate.
  - split; [eexists; reflexivity|]. split; [intros Hk'; congruence|].
    intros _ Hu. rewrite Hm in Hu. simpl in Hu.
    assert (forallb is_place (map Some ps) = true) as Hall
      by (clear; induction ps; simpl; auto).
    congruence.
Qed.

(* ================================================================== *)
(** ** Properties of utils/trip_logic.js *)

Import TripLogic.

Lemma meal_of_hour_window hour :
  in_meal_window hour <-> exists meal, meal_of_hour hour = Some meal.
Proof.
  unfold in_meal_window, meal_of_hour. split.
  - intros H.
    destruct ((8 <=? hour) && (hour <=? 9)) eqn:B; [eexists; reflexivity|].
    destruct ((12 <=? hour) && (hour <=? 14)) eqn:L; [eexists; reflexivity|].
    destruct ((19 <=? hour) && (hour <=? 21)) eqn:D; [eexists; reflexivity|].
    rewrite andb_false_iff, !Z.leb_gt in B, L, D. lia.
  - intros [meal H].
    destruct ((8 <=? hour) && (hour <=? 9)) eqn:B.
    { rewrite andb_true_iff, !Z.leb_le in B. lia. }
    destruct ((12 <=? hour) && (hour <=? 14)) eqn:L.
    { rewrite andb_true_iff, !Z.leb_le in L. lia. }
    destruct ((19 <=? hour) && (hour <=? 21)) eqn:D.
    { rewrite andb_true_iff, !Z.leb_le in D. lia. }
    discriminate.
Qed.

Lemma meal_of_hour_outside hour : ~ in_meal_window hour -> meal_of_hour hour = None.
Proof.
  intros H. destruct (meal_of_hour hour) as [meal|] eqn:E; [|reflexivity].
  exfalso. apply H, meal_of_hour_window. eauto.
Qed.

Lemma is_fast_charger_fast s : is_fast_charger s = true <-> fast s.
Proof.
  unfold is_fast_charger, fast. destruct (power_output_kw s) as [p|]; split.
  - intros H. exists p. split; [reflexivity|]. now apply Qle_bool_iff.
  - intros (p' & [= <-] & H). now apply Qle_bool_iff.
  - discriminate.
  - intros (p' & H & _). discriminate.
Qed.

(** The head of [filter f l] is the first element of [l] that passes [f]. *)
Lemma filter_head {A} (f : A -> bool) (l : list A) x rest :
  filter f l = x :: rest ->
  exists before after,
    l = before ++ x :: after /\ f x = true /\ Forall (fun y => f y = false) before.
Proof.
  induction l as [|y l IH]; simpl; [discriminate|].
  destruct (f y) eqn:Fy.
  - intros [= -> <-]. exists [], l. repeat split; [assumption|constructor].
  - intros H. destruct (IH H) as (before & after & -> & Fx & Hb).
    exists (y :: before), after. repeat split; [assumption|].
    constructor; assumption.
Qed.

Lemma filter_nil {A} (f : A -> bool) (l : list A) :
  filter f l = [] <-> forall x, In x l -> f x = false.
Proof.
  induction l as [|y l IH]; simpl.
  - split; [intros _ x []|reflexivity].
  - destruct (f y) eqn:Fy; split.
    + discriminate.
    + intros H. specialize (H y (or_introl eq_refl)). congruence.
    + intros H x [<-|Hx]; [assumption|]. now apply IH.
    + intros H. apply IH. intros x Hx. apply H. now right.
Qed.

(** What the evaluator does once the first two guards are passed. *)
Lemma evaluate_after_guards search hour trip loc battery meal t nearby :
  meal_of_hour hour = Some meal ->
  battery < 60 ->
  search (lat loc) (lng loc) (Js.VNum (Js.Num (5 # 1))) = (t, Returned nearby) ->
  evaluateSmartSuggestions search hour trip loc battery =
    (t, Returned
          match filter is_fast_charger nearby with
          | [] => None
          | bestStation :: _ =>
              Some {| type := "meal_stop";
                      mealType := meal;
                      station := bestStation;
                      message := suggestion_message meal bestStation;
                      chargeDuration := 40 |}
          end).
Proof.
  intros Hm Hb Hs. unfold evaluateSmartSuggestions, batteryThreshold.
  rewrite Hm. destruct (60 <=? battery) eqn:E; [apply Z.leb_le in E; lia|].
  rewrite Hs. unfold bind.
  destruct (filter is_fast_charger nearby); simpl; rewrite app_nil_r; reflexivity.
Qed.

(** C5. Outside the three meal windows the evaluator returns null, whatever
    the battery level, the trip and the location; it emits no event at all,
    so neither the discovery function nor the provider is consulted (the
    statement holds for every discovery function, even one that would
    throw). *)
Theorem no_suggestion_outside_meal_windows :
  forall search hour trip loc battery,
    ~ in_meal_window hour ->
    evaluateSmartSuggestions search hour trip loc battery = ([], Returned None).
Proof.
  intros search hour trip loc battery H. unfold evaluateSmartSuggestions.
  now rewrite (meal_of_hour_outside hour H).
Qed.

(** C6. With a battery percentage of 60 or more the evaluator returns null,
    also inside a meal window, for every trip and location (and without
    consulting the discovery function). *)
Theorem no_suggestion_with_high_battery :
  forall search hour trip loc battery,
    60 <= battery ->
    evaluateSmartSuggestions search hour trip loc battery = ([], Returned None).
Proof.
  intros search hour trip loc battery H. unfold evaluateSmartSuggestions, batteryThreshold.
  destruct (meal_of_hour hour); [|reflexivity].
  apply Z.leb_le in H. now rewrite H.
Qed.

(** C1. In a meal window with a battery below 60 (40 in particular): when
    the discovery call returns a station of at least 30 kW, the evaluator
    returns a suggestion whose [chargeDuration] is 40 and whose station is
    the first such station of the returned list; when it returns no station
    of at least 30 kW (none at all included), the evaluator returns null. *)
Theorem suggestion_in_meal_window :
  forall search hour trip loc battery t nearby,
    in_meal_window hour ->
    battery < 60 ->
    search (lat loc) (lng loc) (Js.VNum (Js.Num (5 # 1))) = (t, Returned nearby) ->
    let result := outcome (evaluateSmartSuggestions search hour trip loc battery) in
    ((exists s, In s nearby /\ fast s) ->
       exists suggestion,
         result = Returned (Some suggestion) /\
         chargeDuration suggestion = 40 /\
         first_such fast nearby (station suggestion)) /\
    ((forall s, In s nearby -> ~ fast s) -> result = Returned None).
Proof.
  intros search hour trip loc battery t nearby Hw Hb Hs result.
  apply meal_of_hour_window in Hw as [meal Hm].
  unfold result, outcome.
  rewrite (evaluate_after_guards _ _ _ _ _ _ _ _ Hm Hb Hs). simpl.
  destruct (filter is_fast_charger nearby) as [|best rest] eqn:F; split.
  - intros (s & Hin & Hf). exfalso.
    apply is_fast_charger_fast in Hf.
    rewrite (proj1 (filter_nil _ _) F s Hin) in Hf. discriminate.
  - reflexivity.
  - intros _. eexists. split; [reflexivity|]. split; [reflexivity|]. simpl.
    destruct (filter_head _ _ _ _ F) as (before & after & -> & Fx & Hbefore).
    exists before, after. split; [reflexivity|]. split.
    + now apply is_fast_charger_fast.
    + eapply Forall_impl; [|exact Hbefore]. intros y Hy Hfast.
      apply is_fast_charger_fast in Hfast. congruence.
  - intros Hnone. exfalso.
    assert (In best (filter is_fast_charger nearby)) as Hin by (rewrite F; now left).
    apply filter_In in Hin as [Hin Hf].
    exact (Hnone best Hin (proj1 (is_fast_charger_fast best) Hf)).
Qed.

Lemma external_shape_fast s : external_shape s -> is_fast_charger s = true.
Proof.
  intros (_ & _ & _ & _ & _ & Hp). unfold is_fast_charger. rewrite Hp. reflexivity.
Qed.

Lemma filter_all {A} (f : A -> bool) (l : list A) :
  Forall (fun x => f x = true) l -> filter f l = l.
Proof.
  induction 1 as [|x l Hx _ IH]; simpl; [reflexivity|]. now rewrite Hx, IH.
Qed.

Lemma map_Some_injective {A} (l l' : list A) : map Some l = map Some l' -> l = l'.
Proof.
  revert l'. induction l as [|x l IH]; intros [|y l']; simpl; try discriminate.
  - reflexivity.
  - intros [= -> H]. f_equal. now apply IH.
Qed.

Lemma all_places (ps : list Place) : forallb is_place (map Some ps) = true.
Proof.
  induction ps; simpl; auto.
Qed.


(* ================================================================== *)
(** ** Properties of the handlers *)

Import Store Server.

(** *** Registration *)

Lemma digit_is_not_plus c : Js.is_digit c = true -> Ascii.eqb c plus_sign = false.
Proof.
  intros H. destruct (Ascii.eqb_spec c plus_sign) as [->|]; [|reflexivity].
  discriminate H.
Qed.

(** The two [replace] passes leave exactly the digits. *)
Lemma digitsOnly_digits s : digitsOnly s = Js.filter_chars Js.is_digit s.
Proof.
  unfold digitsOnly. induction s as [|c s IH]; simpl; [reflexivity|].
  destruct (Js.is_digit c) eqn:D; simpl.
  - rewrite (digit_is_not_plus c D). simpl. now rewrite IH.
  - destruct (Ascii.eqb c plus_sign) eqn:P; simpl; [rewrite P; simpl|]; exact IH.
Qed.

(** C9. A registration whose phone, once trimmed and stripped of every
    character that is not a digit, has fewer than 10 digits is answered with
    400, and the store is left as it was (no user is created), whatever the
    name, the email and the password are. *)
Theorem register_rejects_short_phone :
  forall w b db,
    (digit_count (Js.trim (text (reg_phone b))) < 10)%nat ->
    exists reason,
      register w b db = ([], db, Returned {| status_code := 400; body := JError reason |}).
Proof.
  intros w b db H. unfold register, htry, json, hret.
  destruct (missing (reg_name b) || missing (reg_email b) || missing (reg_password b));
    [eexists; reflexivity|].
  destruct (missing (reg_phone b)); [eexists; reflexivity|].
  destruct (negb (Js.truthy_string (Js.trim (text (reg_phone b))))); [eexists; reflexivity|].
  rewrite digitsOnly_digits. fold (digit_count (Js.trim (text (reg_phone b)))).
  apply Nat.ltb_lt in H. rewrite H. eexists; reflexivity.
Qed.

(** *** Bookings *)

Lemma station_has_id_set k st s :
  station_has_id k (set_station_status st s) = station_has_id k s.
Proof. reflexivity. Qed.

(** Reading a station back after [UPDATE ... SET status = st WHERE id = k]. *)
Lemma select_after_update k st db :
  select_station k (update_station_status k st db) =
  map (set_station_status st) (select_station k db).
Proof.
  unfold select_station, update_station_status; simpl.
  induction (charging_stations db) as [|s l IH]; [reflexivity|].
  cbn [map filter]. destruct (station_has_id k s) eqn:E; cbn [map filter].
  - rewrite station_has_id_set, E. cbn [map]. now rewrite IH.
  - rewrite E. exact IH.
Qed.

Lemma select_station_exists k db :
  (exists s, In s (charging_stations db) /\ id s = DbId k) ->
  exists row rest, select_station k db = row :: rest.
Proof.
  intros (s & Hin & Hid).
  assert (In s (select_station k db)) as H.
  { apply filter_In. split; [assumption|]. unfold station_has_id. rewrite Hid. apply Z.eqb_refl. }
  destruct (select_station k db) as [|row rest]; [destruct H|eauto].
Qed.

Lemma select_station_In k db row :
  In row (select_station k db) -> In row (charging_stations db) /\ id row = DbId k.
Proof.
  intros H. apply filter_In in H as [Hin Hid]. split; [assumption|].
  unfold station_has_id in Hid. destruct (id row) as [n|]; [|discriminate].
  apply Z.eqb_eq in Hid. now subst.
Qed.


Lemma user_known userId db :
  (exists u, In u (users db) /\ user_id u = userId) ->
  existsb (fun x => user_id x =? userId) (users db) = true.
Proof.
  intros (u & Hin & Hid). apply existsb_exists. exists u. split; [assumption|].
  subst. apply Z.eqb_refl.
Qed.

(** No row of the table answers to the next value of the sequence. *)
Lemma select_booking_fresh userId db :
  bookings_below_seq db ->
  filter (fun b => (booking_id b =? bookings_id_seq db) && (booking_user_id b =? userId))
    (bookings db) = [].
Proof.
  intros H. apply filter_nil. intros b Hb.
  unfold bookings_below_seq in H. rewrite Forall_forall in H. specialize (H b Hb).
  destruct (booking_id b =? bookings_id_seq db) eqn:E; [|reflexivity].
  apply Z.eqb_eq in E. lia.
Qed.


(** *** The order of the search query *)

Lemma float8_le_total a b : Pg.float8_le a b = true \/ Pg.float8_le b a = true.
Proof.
  destruct a as [x| | |], b as [y| | |]; simpl; auto.
  destruct (Qlt_le_dec y x) as [H|H].
  - right. apply Qle_bool_iff. now apply Qlt_le_weak.
  - left. now apply Qle_bool_iff.
Qed.

Lemma float8_le_trans a b c :
  Pg.float8_le a b = true -> Pg.float8_le b c = true -> Pg.float8_le a c = true.
Proof.
  destruct a as [x| | |], b as [y| | |], c as [z| | |]; simpl; auto; try discriminate.
  rewrite !Qle_bool_iff. apply Qle_trans.
Qed.

Section OrderByFacts.

Context {A : Type} (key : A -> Js.Number).

Lemma insert_by_perm x l : Permutation (Pg.insert_by key x l) (x :: l).
Proof.
  induction l as [|y l IH]; simpl; [reflexivity|].
  destruct (Pg.float8_le (key x) (key y)); [reflexivity|].
  rewrite IH. apply perm_swap.
Qed.

Lemma order_by_perm l : Permutation (Pg.order_by key l) l.
Proof.
  induction l as [|x l IH]; simpl; [reflexivity|].
  rewrite insert_by_perm. now constructor.
Qed.

Lemma insert_by_sorted x l :
  Pg.ascending key l -> Pg.ascending key (Pg.insert_by key x l).
Proof.
  unfold Pg.ascending. induction 1 as [|y l Hl IH Hy]; simpl.
  - repeat constructor.
  - destruct (Pg.float8_le (key x) (key y)) eqn:E.
    + constructor; [constructor; assumption|].
      constructor; [exact E|].
      eapply Forall_impl; [|exact Hy]. intros z Hz.
      eapply float8_le_trans; eassumption.
    + constructor; [exact IH|].
      assert (Pg.float8_le (key y) (key x) = true) as Hyx.
      { destruct (float8_le_total (key x) (key y)) as [H|H]; [congruence|exact H]. }
      eapply Permutation_Forall; [symmetry; apply insert_by_perm|].
      constructor; assumption.
Qed.

Lemma order_by_sorted l : Pg.ascending key (Pg.order_by key l).
Proof.
  induction l as [|x l IH]; simpl; [constructor|]. now apply insert_by_sorted.
Qed.

End OrderByFacts.

Lemma limit_In {A} n (l : list A) x : In x (Pg.limit n l) -> In x l.
Proof.
  unfold Pg.limit. revert n. induction l as [|y l IH]; intros [|n]; simpl;
    try (intros []; fail).
  intros [->|H]; [now left|right; eauto].
Qed.

Lemma limit_sorted {A} (key : A -> Js.Number) n l :
  Pg.ascending key l -> Pg.ascending key (Pg.limit n l).
Proof.
  unfold Pg.ascending, Pg.limit. intros H. revert n. induction H as [|x l Hl IH Hx]; intros [|n]; simpl; try constructor.
  - apply IH.
  - rewrite Forall_forall in *. intros y Hy. apply Hx. eapply limit_In; eassumption.
Qed.

(** *** The search query and its handler *)

Lemma with_distance_In gc p1 p2 l : forall r,
  with_distance gc p1 p2 l = Returned r ->
  forall s d, In (s, d) r -> In s l /\ gc p1 p2 s = Some d.
Proof.
  induction l as [|x l IH]; simpl; intros r.
  - intros [= <-] s d [].
  - destruct (gc p1 p2 x) as [dx|] eqn:E; [|discriminate].
    destruct (with_distance gc p1 p2 l) as [r'|]; [|discriminate].
    intros [= <-] s d [[= <- <-]|H].
    + split; [now left|assumption].
    + destruct (IH r' eq_refl s d H). split; [now right|assumption].
Qed.

Lemma not_inactive_status s : not_inactive s = true <-> status s <> inactive.
Proof.
  unfold not_inactive. destruct (status s); split; congruence.
Qed.

(** What the statement returns when it returns: rows of the table that are
    not inactive, each with its distance, within the radius, in ascending
    order of distance, and at most 50 of them. *)
Lemma search_sql_spec gc p1 p2 p3 db rows :
  search_sql gc p1 p2 p3 db = Returned rows ->
  exists pairs,
    rows = map to_row pairs /\
    Pg.ascending snd pairs /\
    (List.length pairs <= 50)%nat /\
    forall s d, In (s, d) pairs ->
      In s (charging_stations db) /\ status s <> inactive /\
      gc p1 p2 s = Some d /\ Pg.float8_le d p3 = true.
Proof.
  unfold search_sql.
  destruct (with_distance gc p1 p2 (filter not_inactive (charging_stations db)))
    as [all|] eqn:E; [|discriminate].
  intros H.
  exists (Pg.limit 50 (Pg.order_by snd (filter (fun sd => Pg.float8_le (snd sd) p3) all))).
  split; [congruence|]. clear H. split; [|split].
  - apply limit_sorted, order_by_sorted.
  - apply firstn_le_length.
  - intros s d H. apply limit_In in H.
    apply (Permutation_in _ (order_by_perm snd _)) in H.
    apply filter_In in H as [H Hle]. simpl in Hle.
    destruct (with_distance_In _ _ _ _ _ E s d H) as [Hin Hd].
    apply filter_In in Hin as [Hin Hst].
    repeat split; try assumption. now apply not_inactive_status.
Qed.

Lemma distances_persisted pairs : distances (map to_row pairs) = map snd pairs.
Proof.
  induction pairs as [|p l IH]; simpl; [reflexivity|]. now rewrite IH.
Qed.

(** How a search goes once both coordinates are present and the statement
    has returned [primary]. *)
Lemma stations_search_run pf gc w q db primary :
  missing (q_latitude q) = false ->
  missing (q_longitude q) = false ->
  search_sql gc (pf (text (q_latitude q))) (pf (text (q_longitude q)))
    (parseFloat_value pf (radius_of q)) db = Returned primary ->
  let discovery :=
    Serper.searchExternalStations w (Js.VStr (text (q_latitude q)))
      (Js.VStr (text (q_longitude q))) (radius_of q) in
  exists discovered,
    snd discovery = Returned discovered /\
    stations_search pf gc w q db =
      if (List.length primary <? 5)%nat then
        (ConsoleLog (low_count_text (List.length primary))
           :: fst discovery
           ++ [ConsoleLog (added_text (List.length (filter (not_in_db primary) discovered)))],
         db,
         Returned (ok_rows (primary ++ map external_row (filter (not_in_db primary) discovered))))
      else ([], db, Returned (ok_rows primary)).
Proof.
  intros Hlat Hlng Hsql discovery.
  destruct (discovery_returns w (Js.VStr (text (q_latitude q)))
              (Js.VStr (text (q_longitude q))) (radius_of q)) as [discovered Hd].
  exists discovered. split; [exact Hd|].
  unfold stations_search, htry, hbind, query. rewrite Hlat, Hlng. cbn [orb].
  fold (radius_of q). cbn [parseFloat_value] in *. rewrite Hsql.
  destruct (List.length primary <? 5)%nat.
  - unfold lift, hret, json, emit. subst discovery.
    destruct (Serper.searchExternalStations w (Js.VStr (text (q_latitude q)))
                (Js.VStr (text (q_longitude q))) (radius_of q)) as [t o].
    simpl in Hd. subst o. simpl.
    rewrite !app_nil_r. reflexivity.
  - reflexivity.
Qed.

Lemma discovery_is_traced w lat lng radius :
  In (DiscoveryCalled lat lng) (fst (Serper.searchExternalStations w lat lng radius)).
Proof.
  destruct (searchExternalStations_cases w lat lng radius)
    as [(_ & text & Hr) | [(_ & _ & text & Hr) | [(_ & _ & Hr) | (_ & ps & l & _ & Hr & _)]]];
    rewrite Hr; now left.
Qed.

Lemma not_in_db_spec results s :
  not_in_db results s = true <->
  forall r, In r results -> ~ same_name (name s) (name (row_station r)).
Proof.
  unfold not_in_db, same_name. rewrite negb_true_iff. split.
  - intros H r Hr Heq.
    assert (existsb (String.eqb (Js.toLowerCase (name s)))
              (map (fun r => Js.toLowerCase (name (row_station r))) results) = true) as C.
    { apply existsb_exists. exists (Js.toLowerCase (name (row_station r))). split.
      - apply in_map_iff. eauto.
      - now apply String.eqb_eq. }
    congruence.
  - intros H.
    destruct (existsb _ _) eqn:E; [|reflexivity].
    apply existsb_exists in E as (n & Hn & Heq).
    apply in_map_iff in Hn as (r & <- & Hr). apply String.eqb_eq in Heq.
    exfalso. exact (H r Hr Heq).
Qed.


Lemma discovery_shape w lat lng radius stations :
  snd (Serper.searchExternalStations w lat lng radius) = Returned stations ->
  Forall external_shape stations.
Proof.
  destruct (searchExternalStations_cases w lat lng radius)
    as [(_ & text & Hr) | [(_ & _ & text & Hr) | [(_ & _ & Hr) | (_ & ps & l & _ & Hr & _ & Hl)]]];
    rewrite Hr; simpl; intros [= <-]; auto.
Qed.

Lemma sorted_by_distance (pairs : list (Station * Js.Number)) :
  Pg.ascending snd pairs -> nondecreasing (map snd pairs).
Proof.
  unfold nondecreasing, Pg.ascending. induction 1 as [|p l Hl IH Hp]; simpl; constructor.
  - exact IH.
  - apply Forall_map. exact Hp.
Qed.

(** C2, as the code has it. A search answered with 200 returns the rows of
    the store first and the external stations after them. The rows of the
    store carry the distance computed by the statement, are in
    non-decreasing order of it, none is farther than the radius, and there
    are at most 50 of them; no station of the response is inactive. The
    external stations carry no distance, are neither filtered by the radius
    nor ordered nor counted against the limit, and are present only when
    fewer than 5 rows of the store were found. *)
Theorem search_response_shape :
  forall pf gc w q db rows,
    response_of (stations_search pf gc w q db) = Returned (ok_rows rows) ->
    exists persisted external,
      rows = persisted ++ external /\
      nondecreasing (distances persisted) /\
      Forall (fun r =>
                In (row_station r) (charging_stations db) /\
                exists d,
                  distance r = Some d /\
                  gc (pf (text (q_latitude q))) (pf (text (q_longitude q))) (row_station r)
                    = Some d /\
                  Pg.float8_le d (parseFloat_value pf (radius_of q)) = true) persisted /\
      (List.length persisted <= 50)%nat /\
      Forall (fun r => status (row_station r) <> inactive) rows /\
      Forall (fun r => distance r = None /\ is_external (row_station r) = true) external /\
      ((5 <= List.length persisted)%nat -> external = []).
Proof.
  intros pf gc w q db rows Hresp.
  destruct (missing (q_latitude q)) eqn:Hlat.
  { unfold stations_search, htry in Hresp. rewrite Hlat in Hresp. discriminate. }
  destruct (missing (q_longitude q)) eqn:Hlng.
  { unfold stations_search, htry in Hresp. rewrite Hlat, Hlng in Hresp. discriminate. }
  destruct (search_sql gc (pf (text (q_latitude q))) (pf (text (q_longitude q)))
              (parseFloat_value pf (radius_of q)) db) as [primary|e] eqn:Hsql.
  2:{ unfold stations_search, htry, hbind, query in Hresp. rewrite Hlat, Hlng in Hresp.
      cbn [orb parseFloat_value] in Hresp. fold (radius_of q) in Hresp.
      rewrite Hsql in Hresp. discriminate. }
  destruct (stations_search_run pf gc w q db primary Hlat Hlng Hsql) as (discovered & Hd & Hrun).
  rewrite Hrun in Hresp. clear Hrun.
  destruct (search_sql_spec _ _ _ _ _ _ Hsql) as (pairs & -> & Hsorted & Hlen & Hrows).
  assert (Forall (fun r => status (row_station r) <> inactive) (map to_row pairs)) as Hactive.
  { apply Forall_map, Forall_forall. intros [s d] H. simpl. now apply (Hrows s d H). }
  assert (Forall (fun r =>
                In (row_station r) (charging_stations db) /\
                exists d,
                  distance r = Some d /\
                  gc (pf (text (q_latitude q))) (pf (text (q_longitude q))) (row_station r)
                    = Some d /\
                  Pg.float8_le d (parseFloat_value pf (radius_of q)) = true)
            (map to_row pairs)) as Hwithin.
  { apply Forall_map, Forall_forall. intros [s d] H. simpl.
    destruct (Hrows s d H) as (Hin & _ & Hd' & Hle). eauto. }
  destruct (List.length (map to_row pairs) <? 5)%nat eqn:E;
    unfold response_of in Hresp; cbn [snd] in Hresp; injection Hresp as <-.
  - exists (map to_row pairs), (map external_row (filter (not_in_db (map to_row pairs)) discovered)).
    split; [reflexivity|]. rewrite distances_persisted. split; [now apply sorted_by_distance|].
    split; [exact Hwithin|]. split; [now rewrite length_map|].
    pose proof (discovery_shape _ _ _ _ _ Hd) as Hshape.
    assert (Forall external_shape (filter (not_in_db (map to_row pairs)) discovered)) as Hext.
    { apply Forall_forall. intros s Hs. apply filter_In in Hs as [Hs _].
      rewrite Forall_forall in Hshape. auto. }
    split; [|split].
    + apply Forall_app. split; [exact Hactive|].
      apply Forall_map. eapply Forall_impl; [|exact Hext].
      intros s (_ & _ & Hst & _). simpl. rewrite Hst. discriminate.
    + apply Forall_map. eapply Forall_impl; [|exact Hext].
      intros s (_ & Hx & _). simpl. auto.
    + apply Nat.ltb_lt in E. lia.
  - exists (map to_row pairs), []. rewrite app_nil_r.
    split; [reflexivity|]. rewrite distances_persisted. split; [now apply sorted_by_distance|].
    split; [exact Hwithin|]. split; [now rewrite length_map|].
    split; [exact Hactive|]. split; [constructor|reflexivity].
Qed.

(** C2, as worded, fails: with an empty store and a provider that answers
    with 51 places, the response has 51 entries, whatever [parseFloat] and
    the distance expression compute. *)
Lemma search_response_exceeds_fifty :
  ~ exists pf gc,
      forall rows,
        response_of (stations_search pf gc Examples.crowded_world Examples.sample_query
                       Examples.empty_db) = Returned (ok_rows rows) ->
        search_claim (parseFloat_value pf (radius_of Examples.sample_query)) rows.
Proof.
  intros (pf & gc & H).
  remember (response_of (stations_search pf gc Examples.crowded_world Examples.sample_query
                           Examples.empty_db)) as r eqn:E.
  vm_compute in E. subst r.
  specialize (H _ eq_refl). destruct H as (_ & _ & _ & Hlen).
  vm_compute in Hlen. lia.
Qed.

(** *** Route order *)

(** X1. A GET of /stations/search is handled by the route /stations/:id,
    which is registered first, with the text search as the id: the
    statement is refused and the answer is 500; the search handler is not
    reached. *)
Theorem search_route_is_shadowed :
  Router.dispatch Router.GET ["stations"; "search"]
    = (Router.StationById, [("id", "search")]) /\
  forall db,
    response_of (Router.station_by_param "search" db) =
      Returned {| status_code := 500; body := JError "Internal server error" |} /\
    store_of (Router.station_by_param "search" db) = db.
Proof.
  split; [reflexivity|]. intros db. split; reflexivity.
Qed.

(* ================================================================== *)
(** ** The theorems at sample inputs *)

Lemma suggestion_in_meal_window_witness :
  exists suggestion,
    outcome (evaluateSmartSuggestions Examples.sample_search 13 Examples.sample_trip
               Examples.sample_location 40) = Returned (Some suggestion) /\
    chargeDuration suggestion = 40 /\
    first_such fast Examples.sample_nearby (station suggestion).
Proof.
  refine (proj1 (suggestion_in_meal_window Examples.sample_search 13 Examples.sample_trip
                   Examples.sample_location 40 [] Examples.sample_nearby _ _ eq_refl) _).
  - unfold in_meal_window. lia.
  - lia.
  - exists (Examples.station_with 1 "Fast A" (100 # 10) (763 # 10) available (50 # 1)).
    split; [simpl; auto|].
    exists (50 # 1)%Q. split; [reflexivity|]. unfold Qle. simpl. lia.
Defined.

Lemma no_suggestion_outside_meal_windows_witness :
  evaluateSmartSuggestions Examples.sample_search 16 Examples.sample_trip
    Examples.sample_location 40 = ([], Returned None).
Proof.
  apply no_suggestion_outside_meal_windows. unfold in_meal_window. lia.
Defined.

Lemma no_suggestion_with_high_battery_witness :
  evaluateSmartSuggestions Examples.sample_search 13 Examples.sample_trip
    Examples.sample_location 80 = ([], Returned None).
Proof.
  apply no_suggestion_with_high_battery. lia.
Defined.


Lemma register_rejects_short_phone_witness :
  exists reason,
    register Examples.sample_world Examples.short_phone_body Examples.sample_db =
      ([], Examples.sample_db, Returned {| status_code := 400; body := JError reason |}).
Proof.
  apply register_rejects_short_phone. vm_compute. lia.
Defined.




Lemma search_response_shape_witness :
  exists rows,
    response_of (stations_search Examples.sample_parseFloat Examples.sample_distance
                   Examples.sample_world Examples.sample_query Examples.sample_db)
      = Returned (ok_rows rows) /\
    exists persisted external,
      rows = persisted ++ external /\
      nondecreasing (distances persisted) /\
      Forall (fun r =>
                In (row_station r) (charging_stations Examples.sample_db) /\
                exists d,
                  distance r = Some d /\
                  Examples.sample_distance (Examples.sample_parseFloat "10.0")
                    (Examples.sample_parseFloat "76.3") (row_station r) = Some d /\
                  Pg.float8_le d (Js.Num (10 # 1)) = true) persisted /\
      (List.length persisted <= 50)%nat /\
      Forall (fun r => status (row_station r) <> inactive) rows /\
      Forall (fun r => distance r = None /\ is_external (row_station r) = true) external /\
      ((5 <= List.length persisted)%nat -> external = []).
Proof.
  eexists. split.
  - vm_compute. reflexivity.
  - apply (search_response_shape Examples.sample_parseFloat Examples.sample_distance
             Examples.sample_world Examples.sample_query Examples.sample_db).
    vm_compute. reflexivity.
Defined.

(** *** Runs on the sample data *)

Example register_accepts_sample :
  let run :=
    register Examples.sample_world
      {| reg_name := Some "Ravi"; reg_email := Some "ravi@example.com";
         reg_password := Some "secret"; reg_phone := Some " +91 98765 43210 " |}
      Examples.sample_db in
  (exists token user,
     response_of run =
       Returned {| status_code := 201;
                   body := JRegistered "User registered successfully" token user |}
     /\ uv_id user = 8 /\ uv_phone user = "+91 98765 43210") /\
  List.length (users (store_of run)) = 2%nat.
Proof.
  vm_compute. split; [|reflexivity]. do 2 eexists. repeat split.
Qed.

Example search_on_sample_store :
  exists external,
    response_of (stations_search Examples.sample_parseFloat Examples.sample_distance
                   Examples.sample_world Examples.sample_query Examples.sample_db)
    = Returned (ok_rows
        ({| row_station :=
              Examples.station_with 1 "ElectroSpot Station 1" (100 # 10) (763 # 10)
                available (50 # 1);
            distance := Some (Js.Num (0 # 10000)) |} :: external))
    /\ map (fun r => name (row_station r)) external = ["Zeon Charging Hub"; "Unknown Station"]
    /\ map (fun r => id (row_station r)) external
       = [ExtId "ext_1234567890"; ExtId "ext_k3j9x0q1z"].
Proof.
  eexists. vm_compute. repeat split.
Qed.

Example evaluator_picks_first_fast_charger :
  exists suggestion,
    evaluateSmartSuggestions Examples.sample_search 13 Examples.sample_trip
      Examples.sample_location 40 = ([], Returned (Some suggestion)) /\
    name (station suggestion) = "Fast A" /\
    mealType suggestion = TripLogic.lunch /\
    chargeDuration suggestion = 40.
Proof.
  eexists. vm_compute. repeat split.
Qed.

Example discovery_without_key :
  Serper.searchExternalStations
    {| SERPER_API_KEY := None;
       axios := axios Examples.sample_world;
       random36 := random36 Examples.sample_world;
       getHours := 13; NOW := 0;
       bcrypt_hash := bcrypt_hash Examples.sample_world;
       jwt_sign := jwt_sign Examples.sample_world |}
    (Js.VStr "10.0") (Js.VStr "76.3") (Js.VNum (Js.Num (10 # 1)))
  = ([DiscoveryCalled (Js.VStr "10.0") (Js.VStr "76.3");
      ConsoleWarn "⚠️ SERPER_API_KEY not configured. Skipping external search."],
     Returned []).
Proof. reflexivity. Qed.

(* ================================================================== *)
(** ** Further properties of the booking handlers *)

Import BookingSpec.

Lemma select_station_all_status k st db :
  Forall (fun s => status s = st) (select_station k (update_station_status k st db)).
Proof.
  rewrite select_after_update. apply Forall_map, Forall_forall. reflexivity.
Qed.

(** Every way POST /bookings can go. *)
Lemma create_booking_cases userId b db :
  let run := create_booking userId b db in
  (exists reason,
     run = ([], db, Returned {| status_code := 400; body := JError reason |}))
  \/ run = ([], db, Returned {| status_code := 404; body := JError "Station not found" |})
  \/ (exists text,
        run = ([ConsoleError text], db,
               Returned {| status_code := 500; body := JError "Internal server error" |}) /\
        existsb (fun x => user_id x =? userId) (users db) = false)
  \/ (exists start sid row rest view,
        body_start_time b = Some start /\ station_id b = Some sid /\ sid <> 0 /\
        select_station sid db = row :: rest /\ status row = available /\
        existsb (fun x => user_id x =? userId) (users db) = true /\
        view_id view = bookings_id_seq db /\ view_station_id view = sid /\
        view_user_id view = userId /\
        response_of run =
          Returned {| status_code := 201; body := JBooking "Booking created successfully" view |} /\
        events_of run = [] /\
        users (store_of run) = users db /\
        charging_stations (store_of run) =
          charging_stations (update_station_status sid occupied db) /\
        bookings (store_of run) =
          bookings db ++
          [ {| booking_id := bookings_id_seq db; booking_user_id := userId;
               booking_station_id := sid; start_time := start;
               end_time := view_end_time view;
               booking_status := active; cancelled_at := None |} ] /\
        bookings_id_seq (store_of run) = bookings_id_seq db + 1 /\
        users_id_seq (store_of run) = users_id_seq db).
Proof.
  unfold create_booking, htry, hbind, select, execute_returning, execute, insert_booking,
    json, hret, internal_error, lift, emit.
  destruct (body_start_time b) as [start|]; [|left; eexists; reflexivity].
  destruct (station_id b) as [sid|] eqn:Hsid; cbn [truthy_number number negb];
    [|left; eexists; reflexivity].
  destruct (sid =? 0) eqn:Hz; cbn [negb]; [left; eexists; reflexivity|].
  apply Z.eqb_neq in Hz.
  destruct (select_station sid db) as [|row rest] eqn:Hsel; [right; left; reflexivity|].
  unfold is_available. destruct (status row) eqn:Hst; cbn [negb];
    try (left; eexists; reflexivity).
  destruct (existsb (fun x => user_id x =? userId) (users db)) eqn:Hu.
  - right; right; right. cbn.
    exists start, sid, row, rest.
    eexists {| view_id := bookings_id_seq db; view_user_id := userId; view_station_id := sid;
               view_start_time := start; view_end_time := _; view_status := active |}.
    cbn. repeat split; auto.
  - right; right; left. cbn. eexists. split; reflexivity.
Qed.


Lemma select_station_same_table k a b :
  charging_stations a = charging_stations b -> select_station k a = select_station k b.
Proof.
  unfold select_station. now intros ->.
Qed.

(** X3. Once a booking has been created on a station, every further
    POST /bookings for that station, by any user, is refused with
    400 Station is not available, and leaves the store as it is. *)
Theorem no_double_booking :
  forall userId b db message view userId' b',
    response_of (create_booking userId b db) =
      Returned {| status_code := 201; body := JBooking message view |} ->
    station_id b' = station_id b ->
    body_start_time b' <> None ->
    let db1 := store_of (create_booking userId b db) in
    create_booking userId' b' db1 = ([], db1, Returned station_taken).
Proof.
  intros userId b db message view userId' b' Hok Hsame Hstart db1.
  destruct (create_booking_cases userId b db)
    as [[reason H] | [H | [(text & H & _) |
         (start & sid & row & rest & view' & _ & Hsid & Hnz & Hsel & Hst & _ & _ & _ & _ & _ & _ &
          _ & Hstations & _)]]];
    try (rewrite H in Hok; discriminate Hok).
  fold db1 in Hstations.
  assert (select_station sid db1 = map (set_station_status occupied) (row :: rest)) as Hocc.
  { rewrite (select_station_same_table sid _ _ Hstations), select_after_update. now rewrite Hsel. }
  unfold create_booking, htry, hbind, select, json, hret.
  destruct (body_start_time b') as [start'|]; [|congruence].
  rewrite Hsame, Hsid. cbn [truthy_number number]. apply Z.eqb_neq in Hnz. rewrite Hnz.
  cbn [negb]. rewrite Hocc. reflexivity.
Qed.

(** Every way DELETE /bookings/:id can go. *)
Lemma cancel_booking_cases w userId k db :
  (select_booking k userId db = [] /\
   cancel_booking w userId k db =
     ([], db, Returned {| status_code := 404; body := JError "Booking not found" |}))
  \/ (exists b rest,
        select_booking k userId db = b :: rest /\
        cancel_booking w userId k db =
          ([], update_station_status (booking_station_id b) available
                 (update_booking_cancelled k (NOW w) db),
           Returned cancelled_ok)).
Proof.
  unfold cancel_booking, htry, hbind, select, execute, json, hret.
  destruct (select_booking k userId db) as [|b rest]; [left|right].
  - split; reflexivity.
  - exists b, rest. split; reflexivity.
Qed.

Lemma select_booking_In k u db b :
  In b (select_booking k u db) ->
  In b (bookings db) /\ booking_id b = k /\ booking_user_id b = u.
Proof.
  intros H. apply filter_In in H as [Hin H]. apply andb_true_iff in H as [Hk Hu].
  apply Z.eqb_eq in Hk, Hu. auto.
Qed.

(** X4. DELETE /bookings/:id by the owner answers 200 whatever the status
    of the booking is (a booking already cancelled included) and marks the
    station of the booking available without looking at the other bookings:
    another booking of that station that is active stays active while the
    station reads available. *)
Theorem cancel_frees_station_held_by_another_booking :
  forall w userId k db b rest other,
    select_booking k userId db = b :: rest ->
    In other (bookings db) ->
    booking_id other <> k ->
    booking_status other = active ->
    booking_station_id other = booking_station_id b ->
    (exists s, In s (charging_stations db) /\ id s = DbId (booking_station_id b)) ->
    let run := cancel_booking w userId k db in
    response_of run = Returned cancelled_ok /\
    In other (bookings (store_of run)) /\
    exists row,
      response_of (get_station (booking_station_id b) (store_of run)) =
        Returned {| status_code := 200; body := JStation row |} /\
      status row = available.
Proof.
  intros w userId k db b rest other Hsel Hin Hid Hact Hst Hex run.
  destruct (cancel_booking_cases w userId k db) as [[H _] | (b' & rest' & H & Hrun)];
    [congruence|].
  rewrite Hsel in H. injection H as <- <-.
  unfold run. rewrite Hrun. cbn [response_of store_of fst snd].
  split; [reflexivity|]. split.
  - cbn [bookings update_station_status update_booking_cancelled].
    apply in_map_iff. exists other. split; [|assumption].
    apply Z.eqb_neq in Hid. now rewrite Hid.
  - destruct (select_station_exists (booking_station_id b) db Hex) as (row & others & Hrows).
    unfold get_station, htry, hbind, select, json, hret. cbv beta.
    rewrite select_after_update.
    rewrite (select_station_same_table _ (update_booking_cancelled k (NOW w) db) db eq_refl).
    rewrite Hrows. cbn [map response_of snd]. eexists. split; reflexivity.
Qed.

Lemma cancelled_rows_keep_ids k now l :
  map booking_id (map (fun b => if booking_id b =? k then cancel_row now b else b) l)
  = map booking_id l.
Proof.
  induction l as [|b l IH]; simpl; [reflexivity|].
  rewrite IH. destruct (booking_id b =? k); reflexivity.
Qed.

Lemma cancelled_rows_below k now n l :
  Forall (fun b => booking_id b < n) l ->
  Forall (fun b => booking_id b < n)
    (map (fun b => if booking_id b =? k then cancel_row now b else b) l).
Proof.
  intros H. apply Forall_map. eapply Forall_impl; [|exact H].
  intros b Hb. destruct (booking_id b =? k); exact Hb.
Qed.

(** X5. The two booking handlers keep the bookings table well formed: if
    every booking id is below the next value of the sequence and no two rows
    share an id before a POST /bookings or a DELETE /bookings/:id, the same
    holds after it, whatever the request and its answer. *)
Theorem booking_handlers_keep_ids_unique :
  forall w userId b k db,
    bookings_below_seq db ->
    booking_ids_unique db ->
    let created := store_of (create_booking userId b db) in
    let cancelled := store_of (cancel_booking w userId k db) in
    (bookings_below_seq created /\ booking_ids_unique created) /\
    (bookings_below_seq cancelled /\ booking_ids_unique cancelled).
Proof.
  intros w userId b k db Hseq Huniq created cancelled. split.
  - unfold created.
    destruct (create_booking_cases userId b db)
      as [[reason H] | [H | [(text & H & _) |
           (start & sid & row & rest & view & _ & _ & _ & _ & _ & _ & _ & _ & _ & _ & _ &
            _ & _ & Hb & Hs & _)]]];
      try (rewrite H; cbn [store_of fst snd]; split; assumption).
    unfold bookings_below_seq, booking_ids_unique in *. rewrite Hb, Hs. split.
    + apply Forall_app. split.
      * eapply Forall_impl; [|exact Hseq]. intros x Hx. cbv beta in *. lia.
      * constructor; [cbn; lia|constructor].
    + rewrite map_app. cbn [map booking_id].
      apply NoDup_app; [exact Huniq|repeat constructor; intros []|].
      intros x Hx. rewrite Forall_forall in Hseq.
      apply in_map_iff in Hx as (y & <- & Hy). specialize (Hseq y Hy).
      intros [E|[]]. cbv beta in Hseq. lia.
  - unfold cancelled.
    destruct (cancel_booking_cases w userId k db) as [[_ H] | (b' & rest & _ & H)];
      rewrite H; cbn [store_of fst snd]; [split; assumption|].
    unfold bookings_below_seq, booking_ids_unique in *.
    cbn [bookings bookings_id_seq update_station_status update_booking_cancelled].
    split; [now apply cancelled_rows_below|now rewrite cancelled_rows_keep_ids].
Qed.

(** X6. A DELETE /bookings/:id that finds the booking writes to nothing
    else: users are untouched, bookings with another id and stations with
    another id are kept as they are, no row is removed, and every booking
    row with the id carries status cancelled and the time of the request. *)
Theorem cancel_touches_only_its_booking_and_station :
  forall w userId k db b rest,
    select_booking k userId db = b :: rest ->
    let after := store_of (cancel_booking w userId k db) in
    users after = users db /\
    (forall x, In x (bookings db) -> booking_id x <> k -> In x (bookings after)) /\
    (forall x, In x (bookings after) -> booking_id x = k ->
       booking_status x = cancelled /\ cancelled_at x = Some (NOW w)) /\
    (forall s, In s (charging_stations db) -> id s <> DbId (booking_station_id b) ->
       In s (charging_stations after)) /\
    List.length (bookings after) = List.length (bookings db) /\
    List.length (charging_stations after) = List.length (charging_stations db).
Proof.
  intros w userId k db b rest Hsel after.
  destruct (cancel_booking_cases w userId k db) as [[H _] | (b' & rest' & H & Hrun)];
    [congruence|].
  rewrite Hsel in H. injection H as <- <-.
  unfold after. rewrite Hrun. cbn [store_of fst snd].
  cbn [users bookings charging_stations update_station_status update_booking_cancelled].
  split; [reflexivity|]. split; [|split; [|split; [|split]]].
  - intros x Hx Hid. apply in_map_iff. exists x. split; [|assumption].
    apply Z.eqb_neq in Hid. now rewrite Hid.
  - intros x Hx Hid. apply in_map_iff in Hx as (y & Hy & _).
    destruct (booking_id y =? k) eqn:E.
    + subst x. split; reflexivity.
    + subst x. apply Z.eqb_neq in E. contradiction.
  - intros s Hs Hid. apply in_map_iff. exists s. split; [|assumption].
    unfold station_has_id. destruct (id s) as [n|]; [|reflexivity].
    destruct (n =? booking_station_id b) eqn:E; [|reflexivity].
    apply Z.eqb_eq in E. subst n. contradiction.
  - apply length_map.
  - apply length_map.
Qed.

(* ================================================================== *)
(** ** Registration, login and the token middleware *)

Import Account.

(** Every way POST /auth/register can go. *)
Lemma register_cases w b db :
  (exists reason,
     register w b db = ([], db, Returned {| status_code := 400; body := JError reason |}))
  \/ (missing (reg_name b) = false /\ missing (reg_email b) = false /\
      missing (reg_password b) = false /\
      (10 <= digit_count (Js.trim (text (reg_phone b))))%nat /\
      select_user_by_email (text (reg_email b)) db = [] /\
      let u := {| user_id := users_id_seq db;
                  user_name := text (reg_name b);
                  user_email := text (reg_email b);
                  user_password := bcrypt_hash w (text (reg_password b));
                  user_phone := Js.trim (text (reg_phone b));
                  is_admin := false |} in
      register w b db =
        ([],
         {| users := users db ++ [u];
            charging_stations := charging_stations db;
            bookings := bookings db;
            users_id_seq := users_id_seq db + 1;
            bookings_id_seq := bookings_id_seq db |},
         Returned
           {| status_code := 201;
              body := JRegistered "User registered successfully"
                        (jwt_sign w (users_id_seq db) (text (reg_email b)) false)
                        {| uv_id := users_id_seq db; uv_name := text (reg_name b);
                           uv_email := text (reg_email b);
                           uv_phone := Js.trim (text (reg_phone b)) |} |})).
Proof.
  unfold register, htry, json, hret.
  destruct (missing (reg_name b)); [left; eexists; reflexivity|].
  destruct (missing (reg_email b)); [left; eexists; reflexivity|].
  destruct (missing (reg_password b)); [left; eexists; reflexivity|]. cbn [orb].
  destruct (missing (reg_phone b)); [left; eexists; reflexivity|].
  destruct (negb (Js.truthy_string (Js.trim (text (reg_phone b))))); [left; eexists; reflexivity|].
  rewrite digitsOnly_digits. fold (digit_count (Js.trim (text (reg_phone b)))).
  destruct (digit_count (Js.trim (text (reg_phone b))) <? 10)%nat eqn:Hd;
    [left; eexists; reflexivity|].
  apply Nat.ltb_ge in Hd.
  unfold hbind, select, execute_returning, insert_user.
  destruct (select_user_by_email (text (reg_email b)) db) eqn:Hsel;
    [|left; eexists; reflexivity].
  right. repeat (split; [reflexivity || assumption|]). reflexivity.
Qed.


(** X8. After a registration answered with 201, every further registration
    with the same email is answered with 400 and writes nothing; when its
    other fields are valid the reason given is that the user exists. *)
Theorem register_twice_same_email :
  forall w b db message token view b',
    response_of (register w b db) =
      Returned {| status_code := 201; body := JRegistered message token view |} ->
    reg_email b' = reg_email b ->
    let db1 := store_of (register w b db) in
    exists reason,
      register w b' db1 =
        ([], db1, Returned {| status_code := 400; body := JError reason |}) /\
      (missing (reg_name b') = false -> missing (reg_password b') = false ->
       (10 <= digit_count (Js.trim (text (reg_phone b'))))%nat ->
       reason = "User with this email already exists").
Proof.
  intros w b db message token view b' Hok Hsame db1.
  destruct (register_cases w b db) as [[reason H] | (_ & He & _ & _ & _ & H)];
    [rewrite H in Hok; discriminate Hok|].
  cbv zeta in H.
  assert (exists u rest, select_user_by_email (text (reg_email b')) db1 = u :: rest)
    as (u & rest & Hsel).
  { unfold db1. rewrite H. cbn [store_of fst snd]. unfold select_user_by_email. cbn [users].
    rewrite filter_app. cbn [filter user_email]. rewrite Hsame, String.eqb_refl.
    destruct (filter _ (users db)); eexists; eexists; reflexivity. }
  unfold register, htry, json, hret. rewrite Hsame, He.
  destruct (missing (reg_name b')); [eexists; split; [reflexivity|discriminate]|].
  destruct (missing (reg_password b')); [eexists; split; [reflexivity|discriminate]|].
  cbn [orb].
  destruct (missing (reg_phone b')) eqn:Hp.
  { eexists. split; [reflexivity|]. intros _ _ Hd. exfalso.
    unfold missing in Hp. destruct (reg_phone b') as [p|]; cbn in Hd; [|lia].
    destruct p; [cbn in Hd; lia|discriminate]. }
  destruct (negb (Js.truthy_string (Js.trim (text (reg_phone b'))))) eqn:Ht.
  { eexists. split; [reflexivity|]. intros _ _ Hd. exfalso.
    apply negb_true_iff in Ht. destruct (Js.trim (text (reg_phone b'))); [cbn in Hd; lia|discriminate]. }
  rewrite digitsOnly_digits. fold (digit_count (Js.trim (text (reg_phone b')))).
  destruct (digit_count (Js.trim (text (reg_phone b'))) <? 10)%nat eqn:Hd.
  { eexists. split; [reflexivity|]. intros _ _ Hd'. apply Nat.ltb_lt in Hd. lia. }
  unfold hbind, select. rewrite <- Hsame, Hsel. eexists. split; reflexivity.
Qed.


(** X10. A user who has just registered can log in: when [bcrypt.compare]
    accepts the password against the hash [bcrypt.hash] gave for it, a login
    with the registered email and password is answered with 200, carries the
    id, name and email of the registration, is not an admin login, and
    writes nothing. *)
Theorem register_then_login :
  forall cmp w b db message token view,
    response_of (register w b db) =
      Returned {| status_code := 201; body := JRegistered message token view |} ->
    cmp (text (reg_password b)) (bcrypt_hash w (text (reg_password b))) = true ->
    let db1 := store_of (register w b db) in
    login cmp w {| login_email := reg_email b; login_password := reg_password b |} db1 =
      ([], db1,
       Returned {| code := 200;
                   content := LoggedIn "Login successful" token (uv_id view) (uv_name view)
                                (uv_email view) false |}).
Proof.
  intros cmp w b db message token view Hok Hcmp db1.
  destruct (register_cases w b db) as [[reason H] | (_ & He & Hp & _ & Hnone & H)];
    [rewrite H in Hok; discriminate Hok|].
  cbv zeta in H. unfold db1. rewrite H in *. cbn [response_of store_of fst snd] in *.
  injection Hok as <- <- <-.
  unfold login, htry, hbind, select, reply, hret. cbn [login_email login_password].
  rewrite He, Hp. cbn [orb]. unfold select_user_by_email in *. cbn [users].
  rewrite filter_app, Hnone. cbn [filter app user_email]. rewrite String.eqb_refl.
  cbn [user_password user_id user_name user_email is_admin]. rewrite Hcmp. reflexivity.
Qed.

Lemma split_spaces_word s : no_space s = true -> split_spaces s = [s].
Proof.
  induction s as [|c s IH]; cbn [no_space split_spaces]; [reflexivity|]. intros H.
  apply andb_true_iff in H as [Hc Hs]. apply negb_true_iff in Hc.
  rewrite Hc, (IH Hs). reflexivity.
Qed.

Lemma split_spaces_first a r :
  no_space a = true ->
  split_spaces (a ++ String space r) = a :: split_spaces r.
Proof.
  induction a as [|c a IH]; cbn [no_space split_spaces append]; intros H.
  - now rewrite Ascii.eqb_refl.
  - apply andb_true_iff in H as [Hc Ha]. apply negb_true_iff in Hc.
    rewrite Hc, (IH Ha). reflexivity.
Qed.

Lemma token_of_header scheme token :
  no_space scheme = true -> no_space token = true ->
  token_of (Some (scheme ++ " " ++ token)%string) =
    if Js.truthy_string token then Some token else None.
Proof.
  intros Hs Ht. unfold token_of.
  change (scheme ++ " " ++ token)%string with (scheme ++ String space token)%string.
  assert (Js.truthy_string (scheme ++ String space token) = true) as ->
    by (destruct scheme; reflexivity).
  rewrite (split_spaces_first scheme token Hs), (split_spaces_word token Ht). reflexivity.
Qed.

(** X11. The token middleware reads the second blank-separated word of the
    Authorization header and never looks at the first: with any scheme word
    in place of Bearer, the request is let through exactly when that token
    verifies, answered 403 when it does not, and 401 when it is empty. *)
Theorem token_scheme_is_not_checked :
  forall verify scheme token,
    no_space scheme = true ->
    no_space token = true ->
    authenticateToken verify (Some (scheme ++ " " ++ token)%string) =
      if Js.truthy_string token then
        match verify token with
        | Some decoded => Passed (identity_of decoded)
        | None => Rejected 403 "Invalid or expired token"
        end
      else Rejected 401 "Access token required".
Proof.
  intros verify scheme token Hs Ht. unfold authenticateToken.
  rewrite (token_of_header scheme token Hs Ht).
  destruct (Js.truthy_string token); [|reflexivity].
  destruct (verify token); reflexivity.
Qed.

(** X12. The token a registration hands out opens the user routes and none
    of the admin routes: when the verifier reads back the payload the token
    was signed with, a route behind [authenticateToken] runs its handler
    with the id of the new user, and a route behind [authenticateAdmin]
    answers 403 without running its handler or touching the store. *)
Theorem registered_user_is_refused_by_admin_routes :
  forall verify w b db message token view,
    response_of (register w b db) =
      Returned {| status_code := 201; body := JRegistered message token view |} ->
    no_space token = true ->
    Js.truthy_string token = true ->
    verify (jwt_sign w (uv_id view) (uv_email view) false) =
      Some {| claim_userId := uv_id view; claim_email := uv_email view;
              claim_isAdmin := Some false |} ->
    let header := Some ("Bearer " ++ token)%string in
    authenticateToken verify header =
      Passed {| userId := uv_id view; userEmail := uv_email view; isAdmin := false |} /\
    forall (A : Type) (handler : Identity -> H A) db',
      route (authenticateAdmin verify header) handler db' =
        ([], db', Returned (Rejected 403 "Admin access required")).
Proof.
  intros verify w b db message token view Hok Hns Htr Hver header.
  destruct (register_cases w b db) as [[reason H] | (_ & _ & _ & _ & _ & H)];
    [rewrite H in Hok; discriminate Hok|].
  cbv zeta in H. rewrite H in Hok. cbn [response_of snd] in Hok. injection Hok as <- <- <-.
  cbn [uv_id uv_email] in Hver.
  assert (authenticateToken verify header =
          Passed {| userId := users_id_seq db; userEmail := text (reg_email b);
                    isAdmin := false |}) as Hpass.
  { pose proof (token_of_header "Bearer" _ eq_refl Hns) as Ht. cbn [append] in Ht.
    unfold header, authenticateToken. cbn [append].
    rewrite Ht, Htr, Hver. reflexivity. }
  split; [exact Hpass|].
  intros A handler db'. unfold authenticateAdmin. rewrite Hpass. reflexivity.
Qed.

(* ================================================================== *)
(** ** The profile handlers *)

Import ProfileSpec.

Lemma select_user_after_update k b l :
  filter (fun u => user_id u =? k) (map (fun u => if user_id u =? k then set_profile b u else u) l)
  = map (set_profile b) (filter (fun u => user_id u =? k) l).
Proof.
  induction l as [|u l IH]; [reflexivity|]. cbn [map filter].
  destruct (user_id u =? k) eqn:E; cbn [map filter user_id set_profile].
  - rewrite E. cbn [map]. now rewrite IH.
  - rewrite E. exact IH.
Qed.

(** A value of at most [n] bytes is stored as it is. *)
Lemma varchar_fits s : forall n, (String.length s <= n)%nat -> varchar n s = Some s.
Proof.
  induction s as [|c s IH]; intros n Hn; [reflexivity|].
  cbn [varchar String.length] in *.
  destruct (continuation c).
  - rewrite IH by lia. reflexivity.
  - destruct n as [|n]; [lia|]. rewrite IH by lia. reflexivity.
Qed.

Lemma fit_short limit field : too_long limit field = false -> fit limit field = Some field.
Proof.
  unfold too_long, fit. destruct (missing field) eqn:Hm; [reflexivity|].
  cbn [negb andb]. intros Hl. apply Nat.ltb_ge in Hl.
  rewrite (varchar_fits _ _ Hl). destruct field; [reflexivity|discriminate Hm].
Qed.

Lemma stored_body_short b : field_too_long b = false -> stored_body b = Some b.
Proof.
  unfold field_too_long, stored_body. intros H.
  apply orb_false_iff in H. destruct H as [H Hp].
  apply orb_false_iff in H. destruct H as [Hn He].
  rewrite (fit_short _ _ Hn), (fit_short _ _ He), (fit_short _ _ Hp).
  now destruct b.
Qed.

(** Every way PUT /users/profile can go. *)
Lemma put_profile_cases userId b db :
  let run := put_profile userId b db in
  (no_field b = true /\
   run = ([], db, Returned {| code := 400; content := Error "No fields to update" |}))
  \/ (no_field b = false /\
      (stored_body b = None \/
       exists b', stored_body b = Some b' /\
                  (user_exists userId db && email_taken userId b' db) = true) /\
      exists text,
        run = ([ConsoleError text], db,
               Returned {| code := 500; content := Error "Internal server error" |}))
  \/ (no_field b = false /\
      exists b',
        stored_body b = Some b' /\
        (user_exists userId db && email_taken userId b' db) = false /\
        let db' := {| users := map (fun u => if user_id u =? userId then set_profile b' u else u)
                                 (users db);
                      charging_stations := charging_stations db;
                      bookings := bookings db;
                      users_id_seq := users_id_seq db;
                      bookings_id_seq := bookings_id_seq db |} in
        run = ([], db',
               Returned match select_user userId db with
                        | [] => {| code := 200; content := Undefined |}
                        | u :: _ => shown b' u
                        end)).
Proof.
  unfold put_profile, no_field, htry, hbind, execute_returning, update_user, select, reply,
    hret, failed, lift, emit.
  destruct (missing (new_name b) && missing (new_email b) && missing (new_phone b)) eqn:Hn;
    [left; split; reflexivity|].
  right.
  destruct (stored_body b) as [b'|] eqn:Hs;
    [|left; split; [reflexivity|]; split; [now left|]; cbn; eexists; reflexivity].
  set (known := existsb (fun u => user_id u =? userId) (users db)).
  set (taken := existsb (fun u => negb (user_id u =? userId)
                                  && String.eqb (user_email u) (text (new_email b'))) (users db)).
  assert (select_user userId
            {| users := map (fun u => if user_id u =? userId then set_profile b' u else u)
                          (users db);
               charging_stations := charging_stations db;
               bookings := bookings db;
               users_id_seq := users_id_seq db;
               bookings_id_seq := bookings_id_seq db |}
          = map (set_profile b') (select_user userId db)) as Hread.
  { unfold select_user. cbn [users]. apply select_user_after_update. }
  assert (user_exists userId db && email_taken userId b' db
          = negb (missing (new_email b')) && known && taken) as Hboth.
  { unfold user_exists, email_taken. fold known taken.
    now destruct (negb (missing (new_email b'))), known, taken. }
  clearbody known taken.
  destruct (negb (missing (new_email b'))) eqn:He, known, taken; cbn [andb] in *;
    first
      [ right; split; [reflexivity|]; exists b'; split; [reflexivity|];
        split; [exact Hboth|];
        cbv zeta; rewrite Hread; destruct (select_user userId db); reflexivity
      | left; split; [reflexivity|];
        split; [right; exists b'; split; [reflexivity|exact Hboth]|];
        cbn; eexists; reflexivity ].
Qed.

(** X13. PUT /users/profile always answers, and writes only when it answers
    200: it answers 400 exactly when the body has no name, email or phone,
    and, when no field is longer than its column, 500 exactly when it would
    give an existing user the email of a user with another id; on 400 and
    500 the store is left as it was. *)
Theorem profile_update_refusals_write_nothing :
  forall userId b db,
    let run := put_profile userId b db in
    exists r,
      response_of run = Returned r /\
      (code r = 200 \/ store_of run = db) /\
      (code r = 400 <-> no_field b = true) /\
      (field_too_long b = false ->
       (code r = 500 <->
        no_field b = false /\ user_exists userId db = true /\ email_taken userId b db = true)).
Proof.
  intros userId b db run.
  destruct (put_profile_cases userId b db)
    as [(Hn & H) | [(Hn & Hc & text & H) | (Hn & b' & Hs & Hc & H)]];
    cbv zeta in H; fold run in H; rewrite H; cbn [response_of store_of fst snd];
    eexists; (split; [reflexivity|]).
  - cbn. split; [now right|]. split; [tauto|]. intros _.
    split; [discriminate|]. intros (Hn' & _). congruence.
  - cbn. split; [now right|]. split; [split; [discriminate|congruence]|].
    intros Hl. rewrite (stored_body_short _ Hl) in Hc.
    destruct Hc as [Hc | (b' & [= <-] & Hc)]; [discriminate Hc|].
    apply andb_true_iff in Hc. tauto.
  - assert (code match select_user userId db with
                 | [] => {| code := 200; content := Undefined |}
                 | u :: _ => shown b' u
                 end = 200) as -> by (destruct (select_user userId db); reflexivity).
    split; [now left|]. split; [split; [discriminate|congruence]|].
    intros Hl. rewrite (stored_body_short _ Hl) in Hs. injection Hs as <-.
    split; [discriminate|]. intros (_ & Hu & Ht). rewrite Hu, Ht in Hc. discriminate.
Qed.


(* ================================================================== *)
(** ** The trip update handler *)

Import Trips.

(** The evaluator over the real discovery function always returns, and a
    suggestion it returns is for an external station, with 40 minutes. *)
Lemma evaluator_with_discovery w hour trip loc battery :
  exists t r,
    evaluateSmartSuggestions (Serper.searchExternalStations w) hour trip loc battery
      = (t, Returned r) /\
    match r with
    | Some s => external_shape (station s) /\ chargeDuration s = 40
    | None => True
    end.
Proof.
  destruct (meal_of_hour hour) as [meal|] eqn:Hm.
  2:{ exists [], None. unfold evaluateSmartSuggestions. rewrite Hm. split; [reflexivity|exact I]. }
  destruct (60 <=? battery) eqn:Hb.
  { exists [], None. unfold evaluateSmartSuggestions, batteryThreshold. rewrite Hm, Hb.
    split; [reflexivity|exact I]. }
  apply Z.leb_gt in Hb.
  destruct (Serper.searchExternalStations w (lat loc) (lng loc) (Js.VNum (Js.Num (5 # 1))))
    as [t o] eqn:Hd.
  destruct (discovery_returns w (lat loc) (lng loc) (Js.VNum (Js.Num (5 # 1)))) as [nearby Hn].
  rewrite Hd in Hn. cbn in Hn. subst o.
  pose proof (discovery_shape w (lat loc) (lng loc) (Js.VNum (Js.Num (5 # 1))) nearby) as Hshape.
  rewrite Hd in Hshape. specialize (Hshape eq_refl).
  rewrite (evaluate_after_guards _ _ trip _ _ _ _ _ Hm Hb Hd).
  destruct (filter is_fast_charger nearby) as [|best rest] eqn:F.
  - exists t, None. split; [reflexivity|exact I].
  - eexists t, (Some _). split; [reflexivity|]. cbn. split; [|reflexivity].
    assert (In best (filter is_fast_charger nearby)) as Hin by (rewrite F; now left).
    apply filter_In in Hin as [Hin _]. rewrite Forall_forall in Hshape. auto.
Qed.

Lemma evaluator_quiet_outside_windows search hour trip loc battery :
  ~ in_meal_window hour ->
  evaluateSmartSuggestions search hour trip loc battery = ([], Returned None).
Proof.
  intros H. unfold evaluateSmartSuggestions. now rewrite (meal_of_hour_outside hour H).
Qed.

Lemma evaluator_quiet_with_high_battery search hour trip loc battery :
  60 <= battery ->
  evaluateSmartSuggestions search hour trip loc battery = ([], Returned None).
Proof.
  intros H. unfold evaluateSmartSuggestions, batteryThreshold.
  destruct (meal_of_hour hour); [|reflexivity].
  apply Z.leb_le in H. now rewrite H.
Qed.

Lemma ext_prefix suffix : String.prefix "ext_" ("ext_" ++ suffix) = true.
Proof.
  destruct suffix; reflexivity.
Qed.



(* ================================================================== *)
(** ** The test script *)

Import TestLogic.

Lemma isMealTime_window hour : isMealTime hour = true <-> in_meal_window hour.
Proof.
  unfold isMealTime, in_meal_window.
  rewrite !orb_true_iff, !andb_true_iff, !Z.leb_le. tauto.
Qed.

Lemma discovery_reports_no_verdict w lat lng radius :
  existsb is_fail (fst (Serper.searchExternalStations w lat lng radius)) = false.
Proof.
  destruct (searchExternalStations_cases w lat lng radius)
    as [(_ & text & Hr) | [(_ & _ & text & Hr) | [(_ & _ & Hr) | (_ & ps & l & _ & Hr & _)]]];
    rewrite Hr; reflexivity.
Qed.

(** X17. The test script never throws, its high-battery scenario always
    prints PASS, and it prints a FAIL line exactly when it is run in a meal
    window and the discovery call comes back with no station (a missing API
    key, a failed request, an empty answer): its verdict depends on the
    clock and on the provider. *)
Theorem test_script_verdicts :
  forall w,
    let run := runTests w in
    outcome run = Returned tt /\
    In (ConsoleLog pass_high) (trace run) /\
    (existsb is_fail (trace run) = true <->
     in_meal_window (getHours w) /\
     outcome (Serper.searchExternalStations w (lat mockLocation) (lng mockLocation)
                (Js.VNum (Js.Num (5 # 1)))) = Returned []).
Proof.
  intros w run. unfold run, runTests.
  rewrite (evaluator_quiet_with_high_battery _ (getHours w) mockTrip mockLocation 80)
    by lia.
  destruct (Serper.searchExternalStations w (lat mockLocation) (lng mockLocation)
              (Js.VNum (Js.Num (5 # 1)))) as [t o] eqn:Hd.
  destruct (discovery_returns w (lat mockLocation) (lng mockLocation)
              (Js.VNum (Js.Num (5 # 1)))) as [nearby Hn].
  pose proof (discovery_shape w (lat mockLocation) (lng mockLocation)
                (Js.VNum (Js.Num (5 # 1))) nearby) as Hshape.
  pose proof (discovery_reports_no_verdict w (lat mockLocation) (lng mockLocation)
                (Js.VNum (Js.Num (5 # 1)))) as Hquiet.
  rewrite Hd in Hn, Hshape, Hquiet. cbn [fst snd] in Hn, Hquiet. subst o.
  specialize (Hshape eq_refl).
  assert (filter is_fast_charger nearby = nearby) as Hkeep.
  { apply filter_all. eapply Forall_impl; [intros s; apply external_shape_fast|exact Hshape]. }
  unfold outcome, trace. cbn [snd].
  destruct (isMealTime (getHours w)) eqn:Hmeal.
  - pose proof (proj1 (isMealTime_window _) Hmeal) as Hw.
    destruct (proj1 (meal_of_hour_window _) Hw) as [meal Hm].
    rewrite (evaluate_after_guards _ _ mockTrip mockLocation 40 meal t nearby Hm
               ltac:(lia) Hd), Hkeep.
    destruct nearby as [|best rest]; cbn.
    + rewrite !existsb_app, Hquiet. cbn.
      split; [reflexivity|]. split; [rewrite !in_app_iff; cbn; auto 10|].
      split; auto.
    + rewrite !existsb_app, Hquiet. cbn.
      split; [reflexivity|]. split; [rewrite !in_app_iff; cbn; auto 10|].
      split; [discriminate|]. intros [_ [=]].
  - assert (~ in_meal_window (getHours w)) as Hw.
    { intros Hw. apply isMealTime_window in Hw. congruence. }
    rewrite (evaluator_quiet_outside_windows _ _ mockTrip mockLocation 40 Hw). cbn.
    split; [reflexivity|]. split; [auto 10|].
    split; [discriminate|]. intros [Hw' _]. contradiction.
Qed.

(* ================================================================== *)
(** ** Route order, continued *)

(** X18. /stations/search is the only route of the server that an earlier
    route takes over: a request that matches the pattern of any other
    registered route, with the method of that route, is dispatched to that
    route, with the parameters of that match. *)
Theorem search_is_the_only_shadowed_route :
  forall m pattern e path params,
    In (m, pattern, e) Router.routes ->
    Router.match_path pattern path = Some params ->
    e <> Router.StationsSearch ->
    Router.dispatch m path = (e, params).
Proof.
  intros m pattern e path params Hin Hm He.
  unfold Router.routes in Hin. cbn [In] in Hin.
  repeat (destruct Hin as [Hin|Hin]; [injection Hin as <- <- <-|]); try contradiction;
    try congruence;
    read_match Hm; injection Hm as <-;
    unfold Router.dispatch, Router.routes;
    cbn [Router.dispatch_in Router.method_eqb Router.match_path];
    repeat match goal with E : _ = Js.toLowerCase _ |- _ => rewrite <- E; clear E end;
    repeat match goal with T : Js.truthy_string _ = true |- _ => rewrite T; clear T end;
    settle_dispatch.
Qed.

(* ================================================================== *)
(** ** Discovery, search and the evaluator, continued *)

Import MoreSpec.

Lemma map_entries_in_order w ps : forall i,
  exists l,
    Serper.map_entries w i (map Some ps) = ([], Returned l) /\
    map name l = map (fun p => Js.or_string (title p) "Unknown Station") ps /\
    (forallb has_cid ps = true ->
     map id l = map (fun p => ExtId ("ext_" ++ cid_text p)%string) ps).
Proof.
  induction ps as [|p rest IH]; intros i; cbn [map Serper.map_entries].
  - exists []. repeat split.
  - destruct (IH (S i)) as (l & -> & Hnames & Hids). cbn.
    eexists. split; [reflexivity|]. cbn [map name id Serper.to_station]. split.
    + now rewrite Hnames.
    + intros H. cbn [forallb] in H. apply andb_true_iff in H as [Hp Hrest].
      rewrite (Hids Hrest). f_equal.
      unfold has_cid, cid_text, text, Js.or_string in *.
      destruct (cid p) as [c|]; [now rewrite Hp|discriminate].
Qed.

Lemma ext_id_injective a b :
  ExtId ("ext_" ++ a)%string = ExtId ("ext_" ++ b)%string -> a = b.
Proof.
  cbn. now intros [=].
Qed.


(** X20. A failing provider does not fail the search: for a well-formed
    request whose statement returned the rows [primary], when the API key is
    missing, or the provider request is rejected or its answer cannot be
    read, the search is still answered with 200 and exactly the rows of the
    store. *)
Theorem search_survives_provider_failure :
  forall pf gc w q db primary,
    missing (q_latitude q) = false ->
    missing (q_longitude q) = false ->
    search_sql gc (pf (text (q_latitude q))) (pf (text (q_longitude q)))
      (parseFloat_value pf (radius_of q)) db = Returned primary ->
    key_configured w = false \/
    usable (axios w (request_of w (Js.VStr (text (q_latitude q)))
                       (Js.VStr (text (q_longitude q))))) = false ->
    response_of (stations_search pf gc w q db) = Returned (ok_rows primary).
Proof.
  intros pf gc w q db primary Hlat Hlng Hsql Hfail.
  destruct (stations_search_run pf gc w q db primary Hlat Hlng Hsql) as (discovered & Hd & Hrun).
  rewrite Hrun. destruct (List.length primary <? 5)%nat; [|reflexivity].
  cbn [response_of snd].
  assert (discovered = []) as ->; [|now rewrite app_nil_r].
  destruct (searchExternalStations_cases w (Js.VStr (text (q_latitude q)))
              (Js.VStr (text (q_longitude q))) (radius_of q))
    as [(Hk & text & Hr) | [(Hk & Hu & text & Hr) | [(Hk & Hm & Hr) | (Hk & ps & l & Hm & Hr & _)]]];
    rewrite Hr in Hd; cbn in Hd; try congruence.
  exfalso. unfold request_of in Hfail. fold (api_key w) in Hfail.
  destruct Hfail as [Hf|Hf]; [congruence|].
  cbv zeta in Hm. rewrite Hm in Hf. cbn in Hf. rewrite all_places in Hf. discriminate.
Qed.

(** X21. The search handler only reads: whatever the request, the store
    after it is the store before it (external stations are never written),
    and it always answers, with 400 exactly when a coordinate is missing,
    with 500 exactly when the statement is refused, and with 200 otherwise. *)
Theorem search_is_read_only :
  forall pf gc w q db,
    let run := stations_search pf gc w q db in
    store_of run = db /\
    exists r,
      response_of run = Returned r /\
      (status_code r = 400 <-> coordinates_missing q = true) /\
      (status_code r = 500 <->
       coordinates_missing q = false /\
       exists e, search_sql gc (pf (text (q_latitude q))) (pf (text (q_longitude q)))
                   (parseFloat_value pf (radius_of q)) db = Thrown e) /\
      (status_code r = 200 \/ status_code r = 400 \/ status_code r = 500).
Proof.
  intros pf gc w q db run. unfold coordinates_missing.
  destruct (missing (q_latitude q)) eqn:Hlat.
  { unfold run, stations_search, htry. rewrite Hlat. cbn.
    split; [reflexivity|]. eexists. split; [reflexivity|]. cbn.
    repeat split; auto; try discriminate. intros [[=] _]. }
  destruct (missing (q_longitude q)) eqn:Hlng.
  { unfold run, stations_search, htry. rewrite Hlat, Hlng. cbn.
    split; [reflexivity|]. eexists. split; [reflexivity|]. cbn.
    repeat split; auto; try discriminate. intros [[=] _]. }
  destruct (search_sql gc (pf (text (q_latitude q))) (pf (text (q_longitude q)))
              (parseFloat_value pf (radius_of q)) db) as [primary|e] eqn:Hsql.
  - destruct (stations_search_run pf gc w q db primary Hlat Hlng Hsql)
      as (discovered & _ & Hrun).
    unfold run. rewrite Hrun.
    destruct (List.length primary <? 5)%nat; cbn;
      (split; [reflexivity|]); eexists; (split; [reflexivity|]); cbn;
      (repeat split; auto; try discriminate); intros (_ & e & [=]).
  - unfold run, stations_search, htry, hbind, query. rewrite Hlat, Hlng.
    cbn [orb parseFloat_value]. fold (radius_of q). rewrite Hsql. cbn.
    split; [reflexivity|]. eexists. split; [reflexivity|]. cbn.
    repeat split; auto; try discriminate. eauto.
Qed.

(** X22. A suggestion is only ever made inside a meal window and below 60:
    when the evaluator returns one, whatever the discovery function, the
    battery level is below 60, the hour lies in the window of the meal the
    suggestion names, the station is a station the discovery call returned
    with at least 30 kW, and the suggestion is a meal stop of 40 minutes. *)
Theorem suggestion_implies_window_and_low_battery :
  forall search hour trip loc battery t suggestion,
    evaluateSmartSuggestions search hour trip loc battery = (t, Returned (Some suggestion)) ->
    battery < 60 /\
    window_of (mealType suggestion) hour /\
    type suggestion = "meal_stop" /\
    chargeDuration suggestion = 40 /\
    fast (station suggestion) /\
    exists nearby,
      search (lat loc) (lng loc) (Js.VNum (Js.Num (5 # 1))) = (t, Returned nearby) /\
      In (station suggestion) nearby.
Proof.
  intros search hour trip loc battery t sg H.
  unfold evaluateSmartSuggestions, batteryThreshold in H.
  assert (forall meal, meal_of_hour hour = Some meal -> window_of meal hour) as Hwin.
  { intros meal. unfold meal_of_hour, window_of.
    destruct ((8 <=? hour) && (hour <=? 9)) eqn:B.
    { intros [= <-]. rewrite andb_true_iff, !Z.leb_le in B. lia. }
    destruct ((12 <=? hour) && (hour <=? 14)) eqn:L.
    { intros [= <-]. rewrite andb_true_iff, !Z.leb_le in L. lia. }
    destruct ((19 <=? hour) && (hour <=? 21)) eqn:D; [|discriminate].
    intros [= <-]. rewrite andb_true_iff, !Z.leb_le in D. lia. }
  destruct (meal_of_hour hour) as [meal|] eqn:Hm; [|discriminate H].
  destruct (60 <=? battery) eqn:Hb; [discriminate H|]. apply Z.leb_gt in Hb.
  destruct (search (lat loc) (lng loc) (Js.VNum (Js.Num (5 # 1)))) as [t' [nearby|e]] eqn:Hs;
    [|discriminate H].
  unfold bind in H.
  destruct (filter is_fast_charger nearby) as [|best rest] eqn:F; cbn in H; [discriminate H|].
  rewrite app_nil_r in H. injection H as -> <-. cbn.
  assert (In best (filter is_fast_charger nearby)) as Hin by (rewrite F; now left).
  apply filter_In in Hin as [Hin Hf].
  repeat split; auto.
  - now apply is_fast_charger_fast.
  - exists nearby. split; [reflexivity|assumption].
Qed.

(* ================================================================== *)
(** ** The phone rule of registration *)

Lemma space_is_no_digit c : Js.is_space c = true -> Js.is_digit c = false.
Proof.
  unfold Js.is_space, Js.is_digit. cbv zeta.
  rewrite orb_true_iff, andb_true_iff, Nat.eqb_eq, !Nat.leb_le. intros H.
  apply andb_false_iff. rewrite !Nat.leb_gt. lia.
Qed.

Lemma digits_trim_start s :
  Js.filter_chars Js.is_digit (Js.trim_start s) = Js.filter_chars Js.is_digit s.
Proof.
  induction s as [|c s IH]; [reflexivity|]. cbn [Js.trim_start].
  destruct (Js.is_space c) eqn:E; [|reflexivity].
  rewrite IH. cbn [Js.filter_chars]. now rewrite (space_is_no_digit c E).
Qed.

Lemma digits_trim_end s :
  Js.filter_chars Js.is_digit (Js.trim_end s) = Js.filter_chars Js.is_digit s.
Proof.
  induction s as [|c s IH]; [reflexivity|]. cbn [Js.trim_end].
  destruct (Js.trim_end s) as [|c' s'] eqn:E.
  - cbn [Js.filter_chars] in IH. destruct (Js.is_space c) eqn:Hc.
    + cbn [Js.filter_chars]. now rewrite (space_is_no_digit c Hc), <- IH.
    + cbn [Js.filter_chars]. now rewrite <- IH.
  - cbn [Js.filter_chars] in *. now rewrite IH.
Qed.

(** Trimming removes no digit. *)
Lemma digit_count_trim s : digit_count (Js.trim s) = digit_count s.
Proof.
  unfold digit_count, Js.trim. now rewrite digits_trim_end, digits_trim_start.
Qed.

(** X23. The four phone checks of POST /auth/register amount to one rule:
    for a request with a name, a password and an email no user has, whose
    values fit the columns of the users table (the phone column holds 20
    characters), the answer is 201 exactly when the phone as sent holds at
    least 10 digits (0-9); blanks, a plus sign and any other character are
    neither needed nor forbidden. *)
Theorem register_phone_rule :
  forall w b db,
    MoreSpec.fits_users_columns w b ->
    missing (reg_name b) = false ->
    missing (reg_email b) = false ->
    missing (reg_password b) = false ->
    select_user_by_email (text (reg_email b)) db = [] ->
    ((exists message token view,
        response_of (register w b db) =
          Returned {| status_code := 201; body := JRegistered message token view |})
     <-> (10 <= digit_count (text (reg_phone b)))%nat).
Proof.
  intros w b db _ Hn He Hp Hfree. split.
  - intros (message & token & view & Hok).
    destruct (register_cases w b db) as [[reason H] | (_ & _ & _ & Hd & _)];
      [rewrite H in Hok; discriminate Hok|].
    now rewrite digit_count_trim in Hd.
  - intros Hd. rewrite <- digit_count_trim in Hd.
    unfold register, htry, json, hret. rewrite Hn, He, Hp. cbn [orb].
    destruct (missing (reg_phone b)) eqn:Hm.
    { exfalso. unfold missing in Hm. destruct (reg_phone b) as [p|]; [|cbn in Hd; lia].
      destruct p; [cbn in Hd; lia|discriminate]. }
    destruct (Js.truthy_string (Js.trim (text (reg_phone b)))) eqn:Ht.
    2:{ exfalso. destruct (Js.trim (text (reg_phone b))); [cbn in Hd; lia|discriminate]. }
    cbn [negb]. rewrite digitsOnly_digits. fold (digit_count (Js.trim (text (reg_phone b)))).
    apply Nat.ltb_ge in Hd. rewrite Hd.
    unfold hbind, select, execute_returning, insert_user. rewrite Hfree.
    do 3 eexists. reflexivity.
Qed.

(* ================================================================== *)
(** ** The further properties at sample inputs *)

Lemma no_double_booking_witness :
  let db1 := store_of (create_booking 7 Examples.sample_booking_body Examples.sample_db) in
  create_booking 9 Examples.sample_booking_body db1 = ([], db1, Returned station_taken).
Proof.
  eapply (no_double_booking 7 Examples.sample_booking_body Examples.sample_db).
  - vm_compute. reflexivity.
  - reflexivity.
  - discriminate.
Defined.

Lemma cancel_frees_station_held_by_another_booking_witness :
  let run := cancel_booking Examples.sample_world 7 1 Samples.held_db in
  response_of run = Returned cancelled_ok /\
  In Samples.held_booking (bookings (store_of run)) /\
  exists row,
    response_of (get_station 2 (store_of run)) =
      Returned {| status_code := 200; body := JStation row |} /\
    status row = available.
Proof.
  apply (cancel_frees_station_held_by_another_booking Examples.sample_world 7 1
           Samples.held_db Samples.old_booking [] Samples.held_booking).
  - reflexivity.
  - right; left. reflexivity.
  - cbn. lia.
  - reflexivity.
  - reflexivity.
  - eexists. split; [left; reflexivity|reflexivity].
Defined.

Lemma booking_handlers_keep_ids_unique_witness :
  let created := store_of (create_booking 7 Examples.sample_booking_body Examples.sample_db) in
  let cancelled := store_of (cancel_booking Examples.sample_world 7 1 Examples.sample_db) in
  (bookings_below_seq created /\ booking_ids_unique created) /\
  (bookings_below_seq cancelled /\ booking_ids_unique cancelled).
Proof.
  apply (booking_handlers_keep_ids_unique Examples.sample_world 7
           Examples.sample_booking_body 1 Examples.sample_db).
  - constructor; [cbn; lia|constructor].
  - constructor; [intros []|constructor].
Defined.

Lemma cancel_touches_only_its_booking_and_station_witness :
  let after := store_of (cancel_booking Examples.sample_world 7 1 Samples.held_db) in
  users after = users Samples.held_db /\
  (forall x, In x (bookings Samples.held_db) -> booking_id x <> 1 -> In x (bookings after)) /\
  (forall x, In x (bookings after) -> booking_id x = 1 ->
     booking_status x = cancelled /\ cancelled_at x = Some (NOW Examples.sample_world)) /\
  (forall s, In s (charging_stations Samples.held_db) -> id s <> DbId 2 ->
     In s (charging_stations after)) /\
  List.length (bookings after) = List.length (bookings Samples.held_db) /\
  List.length (charging_stations after) = List.length (charging_stations Samples.held_db).
Proof.
  apply (cancel_touches_only_its_booking_and_station Examples.sample_world 7 1
           Samples.held_db Samples.old_booking []).
  reflexivity.
Defined.

Lemma register_twice_same_email_witness :
  let db1 := store_of (register Examples.sample_world Samples.ravi Examples.sample_db) in
  exists reason,
    register Examples.sample_world Samples.ravi db1 =
      ([], db1, Returned {| status_code := 400; body := JError reason |}) /\
    (missing (reg_name Samples.ravi) = false -> missing (reg_password Samples.ravi) = false ->
     (10 <= digit_count (Js.trim (text (reg_phone Samples.ravi))))%nat ->
     reason = "User with this email already exists").
Proof.
  eapply (register_twice_same_email Examples.sample_world Samples.ravi Examples.sample_db).
  - vm_compute. reflexivity.
  - reflexivity.
Defined.

Lemma register_then_login_witness :
  let db1 := store_of (register Examples.sample_world Samples.ravi Examples.sample_db) in
  login Samples.sample_compare Examples.sample_world
    {| login_email := Some "ravi@example.com"; login_password := Some "secret" |} db1 =
    ([], db1,
     Returned {| code := 200;
                 content := LoggedIn "Login successful" "jwt.ravi@example.com" 8 "Ravi"
                              "ravi@example.com" false |}).
Proof.
  apply (register_then_login Samples.sample_compare Examples.sample_world Samples.ravi
           Examples.sample_db "User registered successfully" "jwt.ravi@example.com"
           {| uv_id := 8; uv_name := "Ravi"; uv_email := "ravi@example.com";
              uv_phone := "+91 98765 43210" |}).
  - vm_compute. reflexivity.
  - vm_compute. reflexivity.
Defined.

Lemma token_scheme_is_not_checked_witness :
  authenticateToken Samples.sample_verify (Some "Basic jwt.ravi@example.com") =
    Passed {| userId := 8; userEmail := "ravi@example.com"; isAdmin := false |}.
Proof.
  apply (token_scheme_is_not_checked Samples.sample_verify "Basic" "jwt.ravi@example.com");
    reflexivity.
Defined.

Lemma registered_user_is_refused_by_admin_routes_witness :
  authenticateToken Samples.sample_verify (Some "Bearer jwt.ravi@example.com") =
    Passed {| userId := 8; userEmail := "ravi@example.com"; isAdmin := false |} /\
  forall (A : Type) (handler : Identity -> H A) db',
    route (authenticateAdmin Samples.sample_verify (Some "Bearer jwt.ravi@example.com"))
      handler db' = ([], db', Returned (Rejected 403 "Admin access required")).
Proof.
  apply (registered_user_is_refused_by_admin_routes Samples.sample_verify
           Examples.sample_world Samples.ravi Examples.sample_db
           "User registered successfully" "jwt.ravi@example.com"
           {| uv_id := 8; uv_name := "Ravi"; uv_email := "ravi@example.com";
              uv_phone := "+91 98765 43210" |}).
  - vm_compute. reflexivity.
  - reflexivity.
  - reflexivity.
  - reflexivity.
Defined.




Lemma search_is_the_only_shadowed_route_witness :
  Router.dispatch Router.DELETE ["bookings"; "17"] = (Router.BookingsCancel, [("id", "17")]).
Proof.
  apply (search_is_the_only_shadowed_route Router.DELETE
           [Router.Lit "bookings"; Router.Param "id"]).
  - cbn. auto 12.
  - reflexivity.
  - discriminate.
Defined.


Lemma search_survives_provider_failure_witness :
  exists primary,
    search_sql Examples.sample_distance (Js.Num (100 # 10)) (Js.Num (763 # 10))
      (Js.Num (10 # 1)) Examples.sample_db = Returned primary /\
    response_of (stations_search Examples.sample_parseFloat Examples.sample_distance
                   Samples.keyless_world Examples.sample_query Examples.sample_db)
      = Returned (ok_rows primary).
Proof.
  eexists. split.
  - vm_compute. reflexivity.
  - apply (search_survives_provider_failure Examples.sample_parseFloat
             Examples.sample_distance Samples.keyless_world Examples.sample_query
             Examples.sample_db).
    + reflexivity.
    + reflexivity.
    + vm_compute. reflexivity.
    + left. reflexivity.
Defined.

Lemma suggestion_implies_window_and_low_battery_witness :
  exists suggestion,
    evaluateSmartSuggestions Examples.sample_search 13 Examples.sample_trip
      Examples.sample_location 40 = ([], Returned (Some suggestion)) /\
    40 < 60 /\
    window_of (mealType suggestion) 13 /\
    type suggestion = "meal_stop" /\
    chargeDuration suggestion = 40 /\
    fast (station suggestion) /\
    exists nearby,
      Examples.sample_search (lat Examples.sample_location) (lng Examples.sample_location)
        (Js.VNum (Js.Num (5 # 1))) = ([], Returned nearby) /\
      In (station suggestion) nearby.
Proof.
  eexists. split.
  - vm_compute. reflexivity.
  - eapply (suggestion_implies_window_and_low_battery Examples.sample_search 13
              Examples.sample_trip Examples.sample_location 40 []).
    vm_compute. reflexivity.
Defined.

Lemma register_phone_rule_witness :
  (exists message token view,
     response_of (register Examples.sample_world Samples.ravi Examples.sample_db) =
       Returned {| status_code := 201; body := JRegistered message token view |})
  <-> (10 <= digit_count (text (reg_phone Samples.ravi)))%nat.
Proof.
  apply register_phone_rule; try reflexivity.
  repeat split; apply Nat.leb_le; reflexivity.
Defined.

